(** * Legal_MAD: the debate protocol of [src/agents]

    A shallow embedding of [debater_experimental.py], [judge_experimental.py]
    and of the prompt builders they call, followed by the properties of the
    opening / rebuttal / decision operations.

    Layout:
    - Python values as produced by [json.loads], with the handful of
      operators the agents use ([in], [[]], [.get], [==], truthiness);
    - exceptions, f-strings kept as fragment lists, and the spec's error
      taxonomy;
    - a small monad: instance state, exceptions, and calls to the
      reasoning collaborator as explicit events;
    - the prompt builders, the module table used by the function-level
      imports, [Debater] and [Judge];
    - the theorems. *)

From Stdlib Require Import ZArith String List Lia.
From stdpp Require Import base gmap strings list.

#[local] Set Warnings "-register-all".
#[local] Open Scope Z_scope.

(** ** Python values

    The values exchanged between the agents are what [json.loads] yields:
    [None], booleans, integers, strings, lists and string-keyed dicts.
    Non-integer numbers are outside this model. *)

Inductive json : Type :=
  | JNull
  | JBool (b : bool)
  | JInt (n : Z)
  | JStr (s : string)
  | JList (l : list json)
  | JDict (m : gmap string json).

(** The empty string and the empty dict, the two defaults handed to [.get]. *)
Definition empty_str : json := JStr EmptyString.
Definition empty_dict : json := JDict ∅.

(** [bool(v)]: the truth value tested by [if v] and [not v]. *)
Definition py_truthy (v : json) : bool :=
  match v with
  | JNull => false
  | JBool b => b
  | JInt n => negb (n =? 0)
  | JStr s => negb (Nat.eqb (String.length s) 0)
  | JList l => negb (Nat.eqb (List.length l) 0)
  | JDict m => negb (Nat.eqb (size m) 0)
  end.

(** [a == b].  [bool] is a subclass of [int], so [True == 1]; every other
    pair of distinct types compares unequal; lists compare element-wise and
    dicts key-wise. *)
Fixpoint py_eq (a b : json) : bool :=
  match a, b with
  | JNull, JNull => true
  | JBool x, JBool y => Bool.eqb x y
  | JBool x, JInt n => (if x then 1 else 0) =? n
  | JInt n, JBool x => n =? (if x then 1 else 0)
  | JInt n, JInt m => n =? m
  | JStr s, JStr t => String.eqb s t
  | JList xs, JList ys =>
      (fix all2 (xs ys : list json) : bool :=
         match xs, ys with
         | [], [] => true
         | x :: xs', y :: ys' => py_eq x y && all2 xs' ys'
         | _, _ => false
         end) xs ys
  | JDict m, JDict m' =>
      Nat.eqb (size m) (size m') &&
      map_fold
        (fun k v acc =>
           acc && match m' !! k with
                  | Some v' => py_eq v v'
                  | None => false
                  end)
        true m
  | _, _ => false
  end.

(** [a != b]. *)
Definition py_ne (a b : json) : bool := negb (py_eq a b).

(** [needle in hay] for two strings: substring test. *)
Fixpoint substringb (needle hay : string) : bool :=
  String.prefix needle hay ||
  match hay with
  | EmptyString => false
  | String _ hay' => substringb needle hay'
  end.

(** ** Exceptions and f-strings

    An f-string is kept as the sequence of its literal pieces and of the
    values it interpolates; no [str()] rendering is performed. *)

Inductive fragment : Type :=
  | Lit (s : string)      (* literal text of the template *)
  | Fmt (v : json)        (* [{v}] *)
  | Chr (code : Z).       (* a one-character string built by [chr] *)

Definition text : Type := list fragment.

(** The exceptions the modelled code can raise or let through.
    [ClientError] stands for whatever the collaborator raises. *)
Inductive exn : Type :=
  | ValueError (msg : text)
  | KeyError (key : string)
  | TypeError
  | AttributeError
  | ImportError (module name : string)
  | ClientError (info : string).

(** A pure Python expression: a value, or the exception it raised. *)
Inductive res (A : Type) : Type :=
  | Ok (a : A)
  | Err (e : exn).
Arguments Ok {A} a.
Arguments Err {A} e.

Definition res_bind {A B : Type} (r : res A) (f : A -> res B) : res B :=
  match r with
  | Ok a => f a
  | Err e => Err e
  end.

Declare Scope res_scope.
Delimit Scope res_scope with res.
Notation "x <- r ;; k" := (res_bind r (fun x => k))
  (at level 100, r at next level, right associativity) : res_scope.

(** [key in container]. *)
Definition py_contains (key : string) (container : json) : res bool :=
  match container with
  | JDict m => Ok (match m !! key with Some _ => true | None => false end)
  | JList l => Ok (existsb (fun x => py_eq x (JStr key)) l)
  | JStr s => Ok (substringb key s)
  | JNull | JBool _ | JInt _ => Err TypeError
  end.

(** [key not in container]. *)
Definition py_not_in (key : string) (container : json) : res bool :=
  match py_contains key container with
  | Ok b => Ok (negb b)
  | Err e => Err e
  end.

(** [v not in labels] where [labels] is a list literal of strings. *)
Definition py_not_in_list (v : json) (labels : list string) : bool :=
  negb (existsb (fun l => py_eq (JStr l) v) labels).

(** [container[key]] with a string key. *)
Definition py_getitem (container : json) (key : string) : res json :=
  match container with
  | JDict m =>
      match m !! key with
      | Some v => Ok v
      | None => Err (KeyError key)
      end
  | _ => Err TypeError
  end.

(** [container.get(key, default)]: only dicts have the method. *)
Definition py_get (container : json) (key : string) (default : json) : res json :=
  match container with
  | JDict m =>
      Ok (match m !! key with
          | Some v => v
          | None => default
          end)
  | _ => Err AttributeError
  end.

(** ** Prompts

    A prompt is one of the templates of [prompts.py] and
    [prompts_experimental.py] together with the values interpolated into it,
    in their order of appearance.  The literal wording of a template is
    data; it is identified by the constructor. *)

Inductive template : Type :=
  | OpeningFree             (* get_debater_opening_prompt, position is None *)
  | OpeningAssigned         (* get_debater_opening_prompt, position given *)
  | Rebuttal                (* get_debater_rebuttal_prompt *)
  | JudgeDecision           (* get_judge_decision_prompt *)
  | OpeningIracFree         (* get_debater_opening_prompt_irac, position is None *)
  | OpeningIracAssigned     (* get_debater_opening_prompt_irac, position given *)
  | RebuttalIrac            (* get_debater_rebuttal_prompt_irac *)
  | JudgeDecisionIrac       (* get_judge_decision_prompt_irac *)
  | JudgeDecisionHybrid     (* get_judge_decision_prompt_hybrid *)
  | LegacyOpening           (* prompts.get_debater_opening_prompt *)
  | LegacyRebuttal          (* prompts.get_debater_rebuttal_prompt *)
  | LegacyJudgeDecision.    (* prompts.get_judge_decision_prompt *)

Record Prompt : Type := mkPrompt {
  prompt_template : template;
  prompt_holes : list text
}.

(** ** The reasoning collaborator *)

(** Modelled from the spec: [src/utils/api_client_experimental.py], which
    defines [GroqClient], is not part of the sources.  A client object is
    identified by a handle. *)
Inductive GroqClient : Type :=
  | ClientHandle (id : nat).

(** Modelled from the spec: section 6 gives the interface of
    [generate_json(prompt, max_tokens)]: it returns a parsed JSON value or
    fails, and the failure propagates unchanged. *)
Inductive reply : Type :=
  | Returns (response : json)
  | Fails (info : string).

Record call : Type := mkCall {
  call_client : GroqClient;
  call_prompt : Prompt;
  call_max_tokens : Z
}.

(** A computation that may consult the collaborator: each request is an
    explicit node whose continuation receives the reply. *)
Inductive io (R : Type) : Type :=
  | Pure (r : R)
  | GenerateJson (c : call) (k : reply -> io R).
Arguments Pure {R} r.
Arguments GenerateJson {R} c k.

Fixpoint io_bind {R R' : Type} (p : io R) (f : R -> io R') : io R' :=
  match p with
  | Pure r => f r
  | GenerateJson c k => GenerateJson c (fun rp => io_bind (k rp) f)
  end.

(** A collaborator answers a request knowing every request made so far
    (most recent first, the current one at the head): it may be stateful
    and need not answer the same prompt twice in the same way. *)
Definition collaborator : Type := list call -> reply.

(** Running a computation against a collaborator, from a given request log;
    the final log is returned with the result. *)
Fixpoint run {R : Type} (llm : collaborator) (log : list call) (p : io R)
  : list call * R :=
  match p with
  | Pure r => (log, r)
  | GenerateJson c k => run llm (c :: log) (k (llm (c :: log)))
  end.

(** ** Methods

    A method of an object with instance state [S] either returns a value or
    raises; in both cases the instance state at that point is part of the
    outcome. *)

Inductive outcome (S A : Type) : Type :=
  | Returned (self : S) (a : A)
  | Raised (self : S) (e : exn).
Arguments Returned {S A} self a.
Arguments Raised {S A} self e.

Definition final_state {S A : Type} (o : outcome S A) : S :=
  match o with
  | Returned self _ => self
  | Raised self _ => self
  end.

Definition method (S A : Type) : Type := S -> io (outcome S A).

Definition ret {S A : Type} (a : A) : method S A :=
  fun self => Pure (Returned self a).

Definition raise {S A : Type} (e : exn) : method S A :=
  fun self => Pure (Raised self e).

Definition bind {S A B : Type} (m : method S A) (f : A -> method S B)
  : method S B :=
  fun self =>
    io_bind (m self)
      (fun o =>
         match o with
         | Returned self' a => f a self'
         | Raised self' e => Pure (Raised self' e)
         end).

(** Reading an attribute of [self], and assigning to [self]. *)
Definition read {S A : Type} (attr : S -> A) : method S A :=
  fun self => Pure (Returned self (attr self)).

Definition update {S : Type} (f : S -> S) : method S unit :=
  fun self => Pure (Returned (f self) tt).

(** Evaluating a pure expression inside a method. *)
Definition eval {S A : Type} (r : res A) : method S A :=
  match r with
  | Ok a => ret a
  | Err e => raise e
  end.

(** [client.generate_json(prompt, max_tokens=n)]. *)
Definition generate_json {S : Type} (client : GroqClient) (prompt : Prompt)
    (max_tokens : Z) : method S json :=
  fun self =>
    GenerateJson (mkCall client prompt max_tokens)
      (fun rp =>
         match rp with
         | Returns response => Pure (Returned self response)
         | Fails info => Pure (Raised self (ClientError info))
         end).

Declare Scope method_scope.
Delimit Scope method_scope with method.
Notation "x <- m ;; k" := (bind m (fun x => k))
  (at level 100, m at next level, right associativity) : method_scope.

(** [for key in keys: body(key)], stopping at the first exception. *)
Fixpoint for_each {S : Type} (keys : list string) (body : string -> method S unit)
  : method S unit :=
  match keys with
  | [] => ret tt
  | key :: rest => bind (body key) (fun _ => for_each rest body)
  end.

(** ** Error taxonomy *)

(** Modelled from the spec: section 7 names failures by cause, while the
    source raises [ValueError] at every validation site. *)
Inductive error_kind : Type :=
  | SchemaError
  | SequenceError
  | ConsistencyError
  | GenerationError
  | UnclassifiedError.

(** The literal texts that open the messages of the validation sites. *)
Definition schema_messages : list string :=
  [ "Invalid debater response: ";
    "Invalid rebuttal response: ";
    "Invalid IRAC debater response: ";
    "Missing IRAC component '";
    "Invalid IRAC rebuttal response: ";
    "Missing rebuttal component '";
    "Invalid judge response: ";
    "Invalid decision choice: ";
    "Invalid judge IRAC response: ";
    "Missing synthesis in judge IRAC response: ";
    "Missing synthesis IRAC component '";
    "Invalid judge hybrid response: " ]%string.

Definition sequence_message : string :=
  "Must generate opening argument before rebuttal".

Definition consistency_message : string := "Decision ".

(** Modelled from the spec: a [ValueError] is classified by the literal
    text that opens its message, that is, by the site that raised it. *)
Definition error_kind_of (e : exn) : error_kind :=
  match e with
  | ValueError (Lit s :: _) =>
      if existsb (String.eqb s) schema_messages then SchemaError
      else if String.eqb s sequence_message then SequenceError
      else if String.eqb s consistency_message then ConsistencyError
      else UnclassifiedError
  | ClientError _ => GenerationError
  | _ => UnclassifiedError
  end.

(** ** Pieces shared by the prompt builders *)

Definition newline : string := String (Ascii.ascii_of_nat 10) EmptyString.

(** [chr(n)]: defined on the Unicode range only. *)
Definition py_chr (n : Z) : res Z :=
  if (0 <=? n) && (n <? 1114112) then Ok n
  else Err (ValueError [Lit "chr() arg not in range(0x110000)"]).

(** [sep.join(parts)]. *)
Fixpoint py_join (sep : string) (parts : list text) : text :=
  match parts with
  | [] => []
  | [p] => p
  | p :: rest => p ++ Lit sep :: py_join sep rest
  end.

(** [[f"{chr(65+i)}) {choice}" for i, choice in enumerate(choices)]],
    with [i] the index of the head of [choices]. *)
Fixpoint choice_lines (i : Z) (choices : list json) : res (list text) :=
  match choices with
  | [] => Ok []
  | choice :: rest =>
      (letter <- py_chr (65 + i);;
       lines <- choice_lines (i + 1) rest;;
       Ok ([Chr letter; Lit ") "; Fmt choice] :: lines))%res
  end.

Definition choices_text (choices : list json) : res text :=
  (lines <- choice_lines 0 choices;;
   Ok (py_join newline lines))%res.

(** [f"{prompt_context}\n\n{question}" if prompt_context else question]. *)
Definition full_question (question prompt_context : json) : text :=
  if py_truthy prompt_context
  then [Fmt prompt_context; Lit (newline +:+ newline); Fmt question]
  else [Fmt question].

(** [d.get(k1, {}).get(k2, default)]. *)
Definition py_get2 (d : json) (k1 k2 : string) (default : json) : res json :=
  (inner <- py_get d k1 empty_dict;;
   py_get inner k2 default)%res.

(** ** [src/agents/prompts_experimental.py] *)

Module prompts_experimental.
#[local] Open Scope res_scope.

Definition get_debater_opening_prompt
    (question prompt_context : json) (choices : list json) (position : json)
  : res Prompt :=
  choices_text <- choices_text choices;;
  let full_question := full_question question prompt_context in
  match position with
  | JNull =>
      Ok (mkPrompt OpeningFree [full_question; choices_text])
  | _ =>
      Ok (mkPrompt OpeningAssigned
            [full_question; choices_text; [Fmt position]; [Fmt position]])
  end.

Definition get_debater_rebuttal_prompt
    (question prompt_context my_position my_opening opponent_opening : json)
  : res Prompt :=
  let full_question := full_question question prompt_context in
  my_argument <- py_get my_opening "argument" empty_str;;
  opponent_position <- py_get opponent_opening "position" empty_str;;
  opponent_argument <- py_get opponent_opening "argument" empty_str;;
  Ok (mkPrompt Rebuttal
        [full_question; [Fmt my_position]; [Fmt my_argument];
         [Fmt opponent_position]; [Fmt opponent_argument]; [Fmt my_position]]).

Definition get_judge_decision_prompt
    (question prompt_context : json) (choices : list json) (debate_history : json)
  : res Prompt :=
  choices_text <- choices_text choices;;
  let full_question := full_question question prompt_context in
  debater_x <- py_get debate_history "debater_x" empty_dict;;
  debater_y <- py_get debate_history "debater_y" empty_dict;;
  x_position <- py_get2 debater_x "opening" "position" empty_str;;
  x_argument <- py_get2 debater_x "opening" "argument" empty_str;;
  x_rebuttal <- py_get2 debater_x "rebuttal" "rebuttal" empty_str;;
  y_position <- py_get2 debater_y "opening" "position" empty_str;;
  y_argument <- py_get2 debater_y "opening" "argument" empty_str;;
  y_rebuttal <- py_get2 debater_y "rebuttal" "rebuttal" empty_str;;
  Ok (mkPrompt JudgeDecision
        [full_question; choices_text;
         [Fmt x_position]; [Fmt x_argument]; [Fmt x_rebuttal];
         [Fmt y_position]; [Fmt y_argument]; [Fmt y_rebuttal]]).

Definition get_debater_opening_prompt_irac
    (question prompt_context : json) (choices : list json) (position : json)
  : res Prompt :=
  choices_text <- choices_text choices;;
  let full_question := full_question question prompt_context in
  match position with
  | JNull =>
      Ok (mkPrompt OpeningIracFree [full_question; choices_text])
  | _ =>
      Ok (mkPrompt OpeningIracAssigned
            [full_question; choices_text;
             [Fmt position]; [Fmt position]; [Fmt position]])
  end.

Definition get_debater_rebuttal_prompt_irac
    (question prompt_context my_position my_opening opponent_opening : json)
  : res Prompt :=
  let full_question := full_question question prompt_context in
  opponent_irac <- py_get opponent_opening "irac" empty_dict;;
  opponent_pos <- py_get opponent_opening "position" empty_str;;
  issue <- py_get opponent_irac "issue" empty_str;;
  rule <- py_get opponent_irac "rule" empty_str;;
  application <- py_get opponent_irac "application" empty_str;;
  conclusion <- py_get opponent_irac "conclusion" empty_str;;
  Ok (mkPrompt RebuttalIrac
        [full_question; [Fmt my_position]; [Fmt opponent_pos];
         [Fmt issue]; [Fmt rule]; [Fmt application]; [Fmt conclusion];
         [Fmt my_position]]).

(** The four [irac.get(key, '')] of a judge template, in template order. *)
Definition irac_fields (irac : json) : res (list text) :=
  issue <- py_get irac "issue" empty_str;;
  rule <- py_get irac "rule" empty_str;;
  application <- py_get irac "application" empty_str;;
  conclusion <- py_get irac "conclusion" empty_str;;
  Ok [[Fmt issue]; [Fmt rule]; [Fmt application]; [Fmt conclusion]].

Definition get_judge_decision_prompt_irac
    (question prompt_context : json) (choices : list json) (debate_history : json)
  : res Prompt :=
  choices_text <- choices_text choices;;
  let full_question := full_question question prompt_context in
  debater_x <- py_get debate_history "debater_x" empty_dict;;
  debater_y <- py_get debate_history "debater_y" empty_dict;;
  x_irac <- py_get2 debater_x "opening" "irac" empty_dict;;
  y_irac <- py_get2 debater_y "opening" "irac" empty_dict;;
  x_rebuttal <- py_get2 debater_x "rebuttal" "rebuttal" empty_dict;;
  y_rebuttal <- py_get2 debater_y "rebuttal" "rebuttal" empty_dict;;
  x_position <- py_get2 debater_x "opening" "position" empty_str;;
  x_fields <- irac_fields x_irac;;
  y_position <- py_get2 debater_y "opening" "position" empty_str;;
  y_fields <- irac_fields y_irac;;
  Ok (mkPrompt JudgeDecisionIrac
        ([full_question; choices_text; [Fmt x_position]] ++ x_fields
           ++ [[Fmt x_rebuttal]; [Fmt y_position]] ++ y_fields
           ++ [[Fmt y_rebuttal]])).

Definition get_judge_decision_prompt_hybrid
    (question prompt_context : json) (choices : list json) (debate_history : json)
  : res Prompt :=
  choices_text <- choices_text choices;;
  let full_question := full_question question prompt_context in
  debater_x <- py_get debate_history "debater_x" empty_dict;;
  debater_y <- py_get debate_history "debater_y" empty_dict;;
  x_pos <- py_get2 debater_x "opening" "position" empty_str;;
  y_pos <- py_get2 debater_y "opening" "position" empty_str;;
  x_irac <- py_get2 debater_x "opening" "irac" empty_dict;;
  y_irac <- py_get2 debater_y "opening" "irac" empty_dict;;
  x_rebuttal <- py_get2 debater_x "rebuttal" "rebuttal" empty_str;;
  y_rebuttal <- py_get2 debater_y "rebuttal" "rebuttal" empty_str;;
  x_fields <- irac_fields x_irac;;
  y_fields <- irac_fields y_irac;;
  Ok (mkPrompt JudgeDecisionHybrid
        ([full_question; choices_text; [Fmt x_pos]] ++ x_fields
           ++ [[Fmt y_pos]] ++ y_fields
           ++ [[Fmt x_rebuttal]; [Fmt y_rebuttal];
               [Fmt x_pos]; [Fmt y_pos]; [Fmt x_pos]; [Fmt y_pos]])).

End prompts_experimental.

(** ** [src/agents/prompts.py]

    The older template module: three builders, none of them IRAC. *)

Module prompts.
#[local] Open Scope res_scope.

Definition get_debater_opening_prompt
    (question prompt_context : json) (choices : list json) (position : json)
  : res Prompt :=
  choices_text <- choices_text choices;;
  let full_question := full_question question prompt_context in
  Ok (mkPrompt LegacyOpening
        [full_question; choices_text; [Fmt position]; [Fmt position]]).

Definition get_debater_rebuttal_prompt
    (question prompt_context my_position my_opening opponent_opening : json)
  : res Prompt :=
  let full_question := full_question question prompt_context in
  my_argument <- py_get my_opening "argument" empty_str;;
  opponent_position <- py_get opponent_opening "position" empty_str;;
  opponent_argument <- py_get opponent_opening "argument" empty_str;;
  Ok (mkPrompt LegacyRebuttal
        [full_question; [Fmt my_position]; [Fmt my_argument];
         [Fmt opponent_position]; [Fmt opponent_argument]; [Fmt my_position]]).

Definition get_judge_decision_prompt
    (question prompt_context : json) (choices : list json) (debate_history : json)
  : res Prompt :=
  choices_text <- choices_text choices;;
  let full_question := full_question question prompt_context in
  debater_x <- py_get debate_history "debater_x" empty_dict;;
  debater_y <- py_get debate_history "debater_y" empty_dict;;
  x_position <- py_get2 debater_x "opening" "position" empty_str;;
  x_argument <- py_get2 debater_x "opening" "argument" empty_str;;
  x_rebuttal <- py_get2 debater_x "rebuttal" "rebuttal" empty_str;;
  y_position <- py_get2 debater_y "opening" "position" empty_str;;
  y_argument <- py_get2 debater_y "opening" "argument" empty_str;;
  y_rebuttal <- py_get2 debater_y "rebuttal" "rebuttal" empty_str;;
  Ok (mkPrompt LegacyJudgeDecision
        [full_question; choices_text;
         [Fmt x_position]; [Fmt x_argument]; [Fmt x_rebuttal];
         [Fmt y_position]; [Fmt y_argument]; [Fmt y_rebuttal]]).

End prompts.

(** ** Modules and function-level imports

    [generate_opening_irac], [generate_rebuttal_irac], [make_decision_irac]
    and [make_decision_hybrid] import their prompt builder inside the
    function body, so the lookup happens at each call.  A module is the
    table of the names it defines. *)

Inductive pyfun : Type :=
  | OpeningPromptBuilder
      (f : json -> json -> list json -> json -> res Prompt)
      (* question, prompt_context, choices, position *)
  | RebuttalPromptBuilder
      (f : json -> json -> json -> json -> json -> res Prompt)
      (* question, prompt_context, my_position, my_opening, opponent_opening *)
  | JudgePromptBuilder
      (f : json -> json -> list json -> json -> res Prompt).
      (* question, prompt_context, choices, debate_history *)

Definition sys_modules : Type := gmap string (gmap string pyfun).

(** [from module import name]. *)
Definition import_from (modules : sys_modules) (module name : string)
  : res pyfun :=
  match modules !! module with
  | None => Err (ImportError module name)
  | Some namespace =>
      match namespace !! name with
      | Some f => Ok f
      | None => Err (ImportError module name)
      end
  end.

(** Calls by keyword; a function that does not take these keywords raises
    [TypeError]. *)
Definition call_opening_builder (f : pyfun)
    (question prompt_context : json) (choices : list json) (position : json)
  : res Prompt :=
  match f with
  | OpeningPromptBuilder g => g question prompt_context choices position
  | _ => Err TypeError
  end.

Definition call_rebuttal_builder (f : pyfun)
    (question prompt_context my_position my_opening opponent_opening : json)
  : res Prompt :=
  match f with
  | RebuttalPromptBuilder g =>
      g question prompt_context my_position my_opening opponent_opening
  | _ => Err TypeError
  end.

Definition call_judge_builder (f : pyfun)
    (question prompt_context : json) (choices : list json) (debate_history : json)
  : res Prompt :=
  match f with
  | JudgePromptBuilder g => g question prompt_context choices debate_history
  | _ => Err TypeError
  end.

(** The two template modules as they are in the repository. *)
Definition repo_modules : sys_modules :=
  {[ "src.agents.prompts" :=
       {[ "get_debater_opening_prompt" :=
            OpeningPromptBuilder prompts.get_debater_opening_prompt;
          "get_debater_rebuttal_prompt" :=
            RebuttalPromptBuilder prompts.get_debater_rebuttal_prompt;
          "get_judge_decision_prompt" :=
            JudgePromptBuilder prompts.get_judge_decision_prompt ]};
     "src.agents.prompts_experimental" :=
       {[ "get_debater_opening_prompt" :=
            OpeningPromptBuilder prompts_experimental.get_debater_opening_prompt;
          "get_debater_rebuttal_prompt" :=
            RebuttalPromptBuilder prompts_experimental.get_debater_rebuttal_prompt;
          "get_judge_decision_prompt" :=
            JudgePromptBuilder prompts_experimental.get_judge_decision_prompt;
          "get_debater_opening_prompt_irac" :=
            OpeningPromptBuilder prompts_experimental.get_debater_opening_prompt_irac;
          "get_debater_rebuttal_prompt_irac" :=
            RebuttalPromptBuilder prompts_experimental.get_debater_rebuttal_prompt_irac;
          "get_judge_decision_prompt_irac" :=
            JudgePromptBuilder prompts_experimental.get_judge_decision_prompt_irac;
          "get_judge_decision_prompt_hybrid" :=
            JudgePromptBuilder prompts_experimental.get_judge_decision_prompt_hybrid ]} ]}.

(** ** [src/agents/debater_experimental.py] *)

Module Debater.
#[local] Open Scope method_scope.

Record t : Type := mk {
  client : GroqClient;
  name : string;
  position : json;
  opening_argument : json
}.

Definition set_position (v : json) (self : t) : t :=
  mk (client self) (name self) v (opening_argument self).

Definition set_opening_argument (v : json) (self : t) : t :=
  mk (client self) (name self) (position self) v.

Definition __init__ (client : GroqClient) (name : string) : t :=
  mk client name JNull JNull.

Definition required_keys : list string :=
  ["issue"; "rule"; "application"; "conclusion"]%string.

Definition expected_keys : list string :=
  ["issue_critique"; "rule_critique"; "application_critique";
   "my_reinforcement"]%string.

Definition generate_opening
    (question prompt_context : json) (choices : list json) (position : json)
  : method t json :=
  prompt <- eval (prompts_experimental.get_debater_opening_prompt
                    question prompt_context choices position);;
  client <- read client;;
  response <- generate_json client prompt 750;;
  no_position <- eval (py_not_in "position" response);;
  invalid <- (if no_position : bool then ret true
              else eval (py_not_in "argument" response));;
  if invalid : bool then
    raise (ValueError [Lit "Invalid debater response: "; Fmt response])
  else
    chosen <- eval (py_getitem response "position");;
    _ <- update (set_position chosen);;
    _ <- update (set_opening_argument response);;
    ret response.

Definition generate_rebuttal
    (question prompt_context opponent_opening : json)
  : method t json :=
  opening_argument <- read opening_argument;;
  if negb (py_truthy opening_argument) then
    raise (ValueError [Lit "Must generate opening argument before rebuttal"])
  else
    my_position <- read position;;
    my_opening <- read Debater.opening_argument;;
    prompt <- eval (prompts_experimental.get_debater_rebuttal_prompt
                      question prompt_context my_position my_opening
                      opponent_opening);;
    client <- read client;;
    response <- generate_json client prompt 650;;
    no_rebuttal <- eval (py_not_in "rebuttal" response);;
    if no_rebuttal : bool then
      raise (ValueError [Lit "Invalid rebuttal response: "; Fmt response])
    else
      ret response.

Section FunctionLevelImports.
Variable modules : sys_modules.

Definition generate_opening_irac
    (question prompt_context : json) (choices : list json) (position : json)
  : method t json :=
  get_debater_opening_prompt_irac <-
    eval (import_from modules "src.agents.prompts"
            "get_debater_opening_prompt_irac");;
  prompt <- eval (call_opening_builder get_debater_opening_prompt_irac
                    question prompt_context choices position);;
  client <- read client;;
  response <- generate_json client prompt 900;;
  no_position <- eval (py_not_in "position" response);;
  invalid <- (if no_position : bool then ret true
              else eval (py_not_in "irac" response));;
  if invalid : bool then
    raise (ValueError [Lit "Invalid IRAC debater response: "; Fmt response])
  else
    irac <- eval (py_get response "irac" empty_dict);;
    _ <- for_each required_keys
           (fun key =>
              missing <- eval (py_not_in key irac);;
              if missing : bool then
                raise (ValueError [Lit "Missing IRAC component '";
                                   Fmt (JStr key); Lit "': "; Fmt response])
              else ret tt);;
    chosen <- eval (py_getitem response "position");;
    _ <- update (set_position chosen);;
    _ <- update (set_opening_argument response);;
    ret response.

Definition generate_rebuttal_irac
    (question prompt_context opponent_opening : json)
  : method t json :=
  opening_argument <- read opening_argument;;
  if negb (py_truthy opening_argument) then
    raise (ValueError [Lit "Must generate opening argument before rebuttal"])
  else
    get_debater_rebuttal_prompt_irac <-
      eval (import_from modules "src.agents.prompts"
              "get_debater_rebuttal_prompt_irac");;
    my_position <- read position;;
    my_opening <- read Debater.opening_argument;;
    prompt <- eval (call_rebuttal_builder get_debater_rebuttal_prompt_irac
                      question prompt_context my_position my_opening
                      opponent_opening);;
    client <- read client;;
    response <- generate_json client prompt 700;;
    no_rebuttal <- eval (py_not_in "rebuttal" response);;
    if no_rebuttal : bool then
      raise (ValueError [Lit "Invalid IRAC rebuttal response: "; Fmt response])
    else
      rebuttal <- eval (py_get response "rebuttal" empty_dict);;
      _ <- for_each expected_keys
             (fun key =>
                missing <- eval (py_not_in key rebuttal);;
                if missing : bool then
                  raise (ValueError [Lit "Missing rebuttal component '";
                                     Fmt (JStr key); Lit "': "; Fmt response])
                else ret tt);;
      ret response.

End FunctionLevelImports.
End Debater.

(** ** [src/agents/judge_experimental.py] *)

Module Judge.
#[local] Open Scope method_scope.

Record t : Type := mk {
  client : GroqClient
}.

Definition __init__ (client : GroqClient) : t := mk client.

Definition labels : list string := ["A"; "B"; "C"; "D"]%string.

Definition required_keys : list string :=
  ["issue"; "rule"; "application"; "conclusion"]%string.

Definition make_decision
    (question prompt_context : json) (choices : list json) (debate_history : json)
  : method t json :=
  prompt <- eval (prompts_experimental.get_judge_decision_prompt
                    question prompt_context choices debate_history);;
  client <- read client;;
  response <- generate_json client prompt 800;;
  no_decision <- eval (py_not_in "decision" response);;
  if no_decision : bool then
    raise (ValueError [Lit "Invalid judge response: "; Fmt response])
  else
    decision <- eval (py_getitem response "decision");;
    if py_not_in_list decision labels then
      decision <- eval (py_getitem response "decision");;
      raise (ValueError [Lit "Invalid decision choice: "; Fmt decision])
    else
      ret response.

Section FunctionLevelImports.
Variable modules : sys_modules.

Definition make_decision_irac
    (question prompt_context : json) (choices : list json) (debate_history : json)
  : method t json :=
  get_judge_decision_prompt_irac <-
    eval (import_from modules "src.agents.prompts_experimental"
            "get_judge_decision_prompt_irac");;
  prompt <- eval (call_judge_builder get_judge_decision_prompt_irac
                    question prompt_context choices debate_history);;
  client <- read client;;
  response <- generate_json client prompt 1000;;
  no_decision <- eval (py_not_in "decision" response);;
  if no_decision : bool then
    raise (ValueError [Lit "Invalid judge IRAC response: "; Fmt response])
  else
    decision <- eval (py_getitem response "decision");;
    if py_not_in_list decision labels then
      decision <- eval (py_getitem response "decision");;
      raise (ValueError [Lit "Invalid decision choice: "; Fmt decision])
    else
      no_synthesis <- eval (py_not_in "synthesis" response);;
      if no_synthesis : bool then
        raise (ValueError [Lit "Missing synthesis in judge IRAC response: ";
                           Fmt response])
      else
        synthesis <- eval (py_get response "synthesis" empty_dict);;
        _ <- for_each required_keys
               (fun key =>
                  missing <- eval (py_not_in key synthesis);;
                  if missing : bool then
                    raise (ValueError [Lit "Missing synthesis IRAC component '";
                                       Fmt (JStr key); Lit "': "; Fmt response])
                  else ret tt);;
        ret response.

Definition make_decision_hybrid
    (question prompt_context : json) (choices : list json) (debate_history : json)
  : method t json :=
  get_judge_decision_prompt_hybrid <-
    eval (import_from modules "src.agents.prompts_experimental"
            "get_judge_decision_prompt_hybrid");;
  prompt <- eval (call_judge_builder get_judge_decision_prompt_hybrid
                    question prompt_context choices debate_history);;
  client <- read client;;
  response <- generate_json client prompt 1000;;
  no_decision <- eval (py_not_in "decision" response);;
  if no_decision : bool then
    raise (ValueError [Lit "Invalid judge hybrid response: "; Fmt response])
  else
    decision <- eval (py_getitem response "decision");;
    if py_not_in_list decision labels then
      decision <- eval (py_getitem response "decision");;
      raise (ValueError [Lit "Invalid decision choice: "; Fmt decision])
    else
      winner <- eval (py_get response "winner" empty_str);;
      debater_x <- eval (py_get debate_history "debater_x" empty_dict);;
      debater_x_pos <- eval (py_get2 debater_x "opening" "position" empty_str);;
      debater_y <- eval (py_get debate_history "debater_y" empty_dict);;
      debater_y_pos <- eval (py_get2 debater_y "opening" "position" empty_str);;
      x_mismatch <- (if py_eq winner (JStr "debater_x") then
                       decision <- eval (py_getitem response "decision");;
                       ret (py_ne decision debater_x_pos)
                     else ret false);;
      if x_mismatch : bool then
        decision <- eval (py_getitem response "decision");;
        raise (ValueError [Lit "Decision "; Fmt decision;
                           Lit " doesn't match winner debater_x's position ";
                           Fmt debater_x_pos])
      else
        y_mismatch <- (if py_eq winner (JStr "debater_y") then
                         decision <- eval (py_getitem response "decision");;
                         ret (py_ne decision debater_y_pos)
                       else ret false);;
        if y_mismatch : bool then
          decision <- eval (py_getitem response "decision");;
          raise (ValueError [Lit "Decision "; Fmt decision;
                             Lit " doesn't match winner debater_y's position ";
                             Fmt debater_y_pos])
        else
          ret response.

End FunctionLevelImports.
End Judge.

(** ** Vocabulary of the statements *)

(** The first action of [p] is a request to the collaborator, which answers
    it with [rp]. *)
Definition answers {R : Type} (llm : collaborator) (log : list call)
    (p : io R) (rp : reply) : Prop :=
  match p with
  | Pure _ => False
  | GenerateJson c _ => llm (c :: log) = rp
  end.

(** The outcome of running a method call. *)
Definition result_of {S A : Type} (llm : collaborator) (log : list call)
    (p : io (outcome S A)) : outcome S A :=
  snd (run llm log p).

(** The call raised an exception of the given kind. *)
Definition fails_with {S A : Type} (kind : error_kind) (o : outcome S A)
  : Prop :=
  match o with
  | Raised _ e => error_kind_of e = kind
  | Returned _ _ => False
  end.

Definition is_raised {S A : Type} (o : outcome S A) : bool :=
  match o with
  | Raised _ _ => true
  | Returned _ _ => false
  end.

(** The four public operations of a Debater, as a caller may invoke them. *)
Inductive operation : Type :=
  | Opening (question prompt_context : json) (choices : list json)
      (position : json)
  | OpeningIrac (question prompt_context : json) (choices : list json)
      (position : json)
  | Rebut (question prompt_context opponent_opening : json)
  | RebutIrac (question prompt_context opponent_opening : json).

Definition perform (modules : sys_modules) (op : operation)
  : method Debater.t json :=
  match op with
  | Opening q c ch p => Debater.generate_opening q c ch p
  | OpeningIrac q c ch p => Debater.generate_opening_irac modules q c ch p
  | Rebut q c o => Debater.generate_rebuttal q c o
  | RebutIrac q c o => Debater.generate_rebuttal_irac modules q c o
  end.

Definition is_opening (op : operation) : bool :=
  match op with
  | Opening _ _ _ _ | OpeningIrac _ _ _ _ => true
  | Rebut _ _ _ | RebutIrac _ _ _ => false
  end.

(** A Debater on which no opening-generation call has succeeded so far:
    freshly constructed, then driven through any operations, every opening
    among them having raised.  The request log is threaded along. *)
Inductive no_opening_yet (modules : sys_modules) (llm : collaborator)
  : list call -> Debater.t -> Prop :=
  | fresh_debater (client : GroqClient) (name : string) (log : list call) :
      no_opening_yet modules llm log (Debater.__init__ client name)
  | after_operation (log log' : list call) (self : Debater.t)
      (op : operation) (o : outcome Debater.t json) :
      no_opening_yet modules llm log self ->
      run llm log (perform modules op self) = (log', o) ->
      (is_opening op = true -> is_raised o = true) ->
      no_opening_yet modules llm log' (final_state o).

(** The three decision operations of a Judge. *)
Inductive variant : Type :=
  | Vanilla
  | IRAC
  | Hybrid.

Definition decision_operation (modules : sys_modules) (v : variant)
  : json -> json -> list json -> json -> method Judge.t json :=
  match v with
  | Vanilla => Judge.make_decision
  | IRAC => Judge.make_decision_irac modules
  | Hybrid => Judge.make_decision_hybrid modules
  end.

(** The payload's [decision] field is present and is one of the labels. *)
Definition decision_ok (m : gmap string json) : Prop :=
  exists l, m !! "decision" = Some (JStr l) /\ In l Judge.labels.

(** The payload's [synthesis] is absent, or one of the four
    [key in synthesis] tests of the IRAC check is false. *)
Definition synthesis_test_fails (m : gmap string json) : Prop :=
  m !! "synthesis" = None \/
  exists s key,
    m !! "synthesis" = Some s /\ In key Judge.required_keys /\
    py_contains key s = Ok false.

(** The payload's [synthesis], when present, is a mapping. *)
Definition synthesis_absent_or_mapping (m : gmap string json) : Prop :=
  match m !! "synthesis" with
  | None | Some (JDict _) => True
  | Some _ => False
  end.

(** The payload's [synthesis] is absent, or is a mapping that lacks one of
    the keys issue, rule, application, conclusion. *)
Definition synthesis_incomplete (m : gmap string json) : Prop :=
  m !! "synthesis" = None \/
  exists s key,
    m !! "synthesis" = Some (JDict s) /\ In key Judge.required_keys /\
    s !! key = None.

(** The payload's [synthesis] is present and passes the four
    [key in synthesis] tests. *)
Definition synthesis_complete (m : gmap string json) : Prop :=
  exists s,
    m !! "synthesis" = Some s /\
    forall key, In key Judge.required_keys -> py_contains key s = Ok true.

(** Outcome of the loop that checks [keys] in the [synthesis] value [s] of
    [response], followed by [return response]. *)
Fixpoint synthesis_check (keys : list string) (s response : json)
    (self : Judge.t) : outcome Judge.t json :=
  match keys with
  | [] => Returned self response
  | key :: rest =>
      match py_not_in key s with
      | Err e => Raised self e
      | Ok true =>
          Raised self
            (ValueError [Lit "Missing synthesis IRAC component '";
                         Fmt (JStr key); Lit "': "; Fmt response])
      | Ok false => synthesis_check rest s response self
      end
  end.

(** The value read by [response.get('winner', '')]. *)
Definition winner_of (m : gmap string json) : json :=
  match m !! "winner" with
  | Some w => w
  | None => empty_str
  end.

(** [debate_history.get(side, {}).get('opening', {}).get('position', '')]. *)
Definition opening_position (debate_history : json) (side : string)
  : res json :=
  (debater <- py_get debate_history side empty_dict;;
   py_get2 debater "opening" "position" empty_str)%res.

(** Concrete data for the worked instances. *)

Definition mock (response : json) : collaborator :=
  fun _ => Returns response.

(** A collaborator whose answers depend on the request log, yet which
    gives the same response to the first two requests. *)
Definition twice_then_fail (response : json) : collaborator :=
  fun log =>
    if Nat.leb (List.length log) 2 then Returns response
    else Fails "quota".

Definition sample_question : json := JStr "Who prevails?".

Definition sample_choices : list json :=
  [JStr "X wins"; JStr "Y wins"; JStr "Z wins"; JStr "W wins"].

Definition sample_debater : Debater.t :=
  Debater.__init__ (ClientHandle 0) "Debater".

Definition sample_judge : Judge.t := Judge.__init__ (ClientHandle 0).

Definition sample_opening (label : string) : json :=
  JDict {[ "position" := JStr label; "argument" := JStr "Because." ]}.

Definition sample_history : json :=
  JDict {[ "debater_x" := JDict {[ "opening" := sample_opening "A" ]};
           "debater_y" := JDict {[ "opening" := sample_opening "B" ]} ]}.

Definition sample_decision (winner label : string) : gmap string json :=
  {[ "winner" := JStr winner; "decision" := JStr label;
     "rationale" := JStr "r"; "synthesis" := JStr "s" ]}.

(** ** Further vocabulary: reachable states and transcript shapes *)

(** The states a Debater constructed with [client] and [name] can be in,
    whatever operations were invoked on it and however they ended. *)
Inductive reachable (modules : sys_modules) (llm : collaborator)
    (client : GroqClient) (name : string)
  : list call -> Debater.t -> Prop :=
  | reachable_fresh (log : list call) :
      reachable modules llm client name log (Debater.__init__ client name)
  | reachable_step (log log' : list call) (self : Debater.t)
      (op : operation) (o : outcome Debater.t json) :
      reachable modules llm client name log self ->
      run llm log (perform modules op self) = (log', o) ->
      reachable modules llm client name log' (final_state o).

(** No opening is stored. *)
Definition unopened (self : Debater.t) : Prop :=
  Debater.position self = JNull /\ Debater.opening_argument self = JNull.

(** An opening is stored: a dict whose [position] is the stored position. *)
Definition opened (self : Debater.t) : Prop :=
  exists m,
    Debater.opening_argument self = JDict m /\
    m !! "position" = Some (Debater.position self).

(** [max_tokens] of the request each operation makes. *)
Definition debater_max_tokens (op : operation) : Z :=
  match op with
  | Opening _ _ _ _ => 750
  | OpeningIrac _ _ _ _ => 900
  | Rebut _ _ _ => 650
  | RebutIrac _ _ _ => 700
  end.

Definition judge_max_tokens (v : variant) : Z :=
  match v with
  | Vanilla => 800
  | IRAC | Hybrid => 1000
  end.

(** The largest number of choices [chr(65+i)] can label. *)
Definition max_choices : Z := 1114047.

(** A phase entry that [.get(phase, {}).get(...)] can read: absent, or a
    dict. *)
Definition absent_or_dict (entry : option json) : Prop :=
  match entry with
  | None | Some (JDict _) => True
  | Some _ => False
  end.

(** A side of the transcript the vanilla judge prompt can read: absent, or
    a dict whose [opening] and [rebuttal] are absent or dicts. *)
Definition readable_side (history : gmap string json) (side : string) : Prop :=
  match history !! side with
  | None => True
  | Some (JDict d) =>
      absent_or_dict (d !! "opening") /\ absent_or_dict (d !! "rebuttal")
  | Some _ => False
  end.

(** [m.get(key, default)] on a dict. *)
Definition get_or (m : gmap string json) (key : string) (default : json)
  : json :=
  match m !! key with
  | Some v => v
  | None => default
  end.

(** What [generate_rebuttal] does with the collaborator's reply. *)
Definition rebuttal_verdict (self : Debater.t) (rp : reply)
  : outcome Debater.t json :=
  match rp with
  | Fails info => Raised self (ClientError info)
  | Returns response =>
      match py_contains "rebuttal" response with
      | Ok true => Returned self response
      | Ok false =>
          Raised self
            (ValueError [Lit "Invalid rebuttal response: "; Fmt response])
      | Err e => Raised self e
      end
  end.

(** * Properties *)

(** ** Basic facts about the value operators *)

Lemma py_eq_str_l (s : string) (v : json) :
  py_eq (JStr s) v = true <-> v = JStr s.
Proof.
  destruct v; simpl; split; intros H; try discriminate.
  - apply String.eqb_eq in H. now subst.
  - injection H as ->. apply String.eqb_refl.
Qed.

Lemma py_eq_str_r (v : json) (s : string) :
  py_eq v (JStr s) = true <-> v = JStr s.
Proof.
  destruct v; simpl; split; intros H; try discriminate.
  - apply String.eqb_eq in H. now subst.
  - injection H as ->. apply String.eqb_refl.
Qed.

(** A value passes the label check exactly when it is one of the four
    label strings. *)
Lemma py_not_in_list_false (v : json) (ls : list string) :
  py_not_in_list v ls = false <-> exists l, v = JStr l /\ In l ls.
Proof.
  unfold py_not_in_list. rewrite negb_false_iff, existsb_exists.
  split.
  - intros (l & Hin & Heq). apply py_eq_str_l in Heq. eauto.
  - intros (l & -> & Hin). exists l. split; [done|]. now apply py_eq_str_l.
Qed.

Lemma py_not_in_dict (key : string) (m : gmap string json) :
  py_not_in key (JDict m) =
  Ok (match m !! key with Some _ => false | None => true end).
Proof. unfold py_not_in. simpl. now destruct (m !! key). Qed.

(** ** Running methods *)

Lemma run_io_bind {R R' : Type} (llm : collaborator) (p : io R)
    (f : R -> io R') (log : list call) :
  run llm log (io_bind p f) =
  let '(log', r) := run llm log p in run llm log' (f r).
Proof.
  revert log. induction p as [r|c k IH]; intros log; simpl.
  - reflexivity.
  - apply IH.
Qed.

Lemma run_bind {S A B : Type} (llm : collaborator) (m : method S A)
    (f : A -> method S B) (log : list call) (self : S) :
  run llm log (bind m f self) =
  let '(log', o) := run llm log (m self) in
  match o with
  | Returned self' a => run llm log' (f a self')
  | Raised self' e => (log', Raised self' e)
  end.
Proof.
  unfold bind. rewrite run_io_bind.
  destruct (run llm log (m self)) as [log' [self' a|self' e]]; reflexivity.
Qed.

(** Symbolic execution of a method body: reduce, then split on whatever
    value the next step inspects. *)
Ltac exec :=
  cbv beta delta [bind eval ret raise read update generate_json]; cbn.

Ltac exec_split :=
  repeat (exec;
          match goal with
          | |- context [match ?x with _ => _ end] => destruct x eqn:?
          end);
  exec.

(** ** The Debater *)

Section DebaterFrame.
Variable modules : sys_modules.
Variable llm : collaborator.

(** Rebuttals never assign to [self]. *)
Lemma generate_rebuttal_frame (log : list call) (self : Debater.t)
    (q c o : json) :
  final_state (result_of llm log (Debater.generate_rebuttal q c o self)) = self.
Proof.
  unfold result_of, Debater.generate_rebuttal. exec_split; reflexivity.
Qed.

Lemma generate_rebuttal_irac_frame (log : list call) (self : Debater.t)
    (q c o : json) :
  final_state
    (result_of llm log (Debater.generate_rebuttal_irac modules q c o self))
  = self.
Proof.
  unfold result_of, Debater.generate_rebuttal_irac. exec_split; reflexivity.
Qed.

(** An opening that raises has not assigned to [self]. *)
Lemma generate_opening_raises_frame (log : list call) (self : Debater.t)
    (q c : json) (ch : list json) (p : json) :
  is_raised (result_of llm log (Debater.generate_opening q c ch p self)) = true ->
  final_state (result_of llm log (Debater.generate_opening q c ch p self)) = self.
Proof.
  unfold result_of, Debater.generate_opening.
  exec_split; (reflexivity || discriminate).
Qed.

Lemma generate_opening_irac_raises_frame (log : list call) (self : Debater.t)
    (q c : json) (ch : list json) (p : json) :
  is_raised
    (result_of llm log (Debater.generate_opening_irac modules q c ch p self))
  = true ->
  final_state
    (result_of llm log (Debater.generate_opening_irac modules q c ch p self))
  = self.
Proof.
  unfold result_of, Debater.generate_opening_irac.
  exec_split; (reflexivity || discriminate).
Qed.

End DebaterFrame.

Ltac exec_in H :=
  cbv beta delta [bind eval ret raise read update generate_json] in H;
  cbn in H.

Lemma no_opening_yet_unset (modules : sys_modules) (llm : collaborator)
    (log : list call) (self : Debater.t) :
  no_opening_yet modules llm log self ->
  Debater.opening_argument self = JNull.
Proof.
  induction 1 as [client name log|log log' self op o _ IH Hrun Hfail].
  - reflexivity.
  - assert (Ho : o = result_of llm log (perform modules op self))
      by (unfold result_of; now rewrite Hrun).
    rewrite Ho in *. clear Ho Hrun.
    destruct op as [q c ch p|q c ch p|q c opp|q c opp]; simpl in *.
    + rewrite generate_opening_raises_frame; auto.
    + rewrite generate_opening_irac_raises_frame; auto.
    + now rewrite generate_rebuttal_frame.
    + now rewrite generate_rebuttal_irac_frame.
Qed.

(** C3: on a Debater whose every opening so far has raised, both rebuttal
    operations raise the "Must generate opening argument before rebuttal"
    [ValueError] (the spec's SequenceError) as a computation with no
    request to the collaborator in it. *)
Theorem rebuttal_before_opening_fails
    (modules : sys_modules) (llm : collaborator) (log : list call)
    (self : Debater.t) (question prompt_context opponent_opening : json) :
  no_opening_yet modules llm log self ->
  Debater.generate_rebuttal question prompt_context opponent_opening self
    = Pure (Raised self (ValueError [Lit sequence_message])) /\
  Debater.generate_rebuttal_irac modules question prompt_context
      opponent_opening self
    = Pure (Raised self (ValueError [Lit sequence_message])) /\
  error_kind_of (ValueError [Lit sequence_message]) = SequenceError.
Proof.
  intros Hno. apply no_opening_yet_unset in Hno.
  unfold Debater.generate_rebuttal, Debater.generate_rebuttal_irac.
  exec. rewrite Hno. cbn. repeat split.
Qed.

Lemma rebuttal_before_opening_fails_witness :
  Debater.generate_rebuttal sample_question JNull (sample_opening "B")
      sample_debater
    = Pure (Raised sample_debater (ValueError [Lit sequence_message])) /\
  Debater.generate_rebuttal_irac repo_modules sample_question JNull
      (sample_opening "B") sample_debater
    = Pure (Raised sample_debater (ValueError [Lit sequence_message])) /\
  error_kind_of (ValueError [Lit sequence_message]) = SequenceError.
Proof.
  (* the Debater has been through one opening, rejected for its missing
     [argument] *)
  set (failed := Opening sample_question JNull sample_choices (JStr "A")).
  set (llm := mock (JDict {[ "position" := JStr "A" ]})).
  apply (rebuttal_before_opening_fails repo_modules llm
           (fst (run llm [] (perform repo_modules failed sample_debater)))).
  apply (after_operation repo_modules llm [] _ sample_debater failed
           (Raised sample_debater
              (ValueError [Lit "Invalid debater response: ";
                           Fmt (JDict {[ "position" := JStr "A" ]})]))).
  - apply fresh_debater.
  - reflexivity.
  - reflexivity.
Defined.

(** C6: whatever the state, the inputs and the collaborator's behaviour,
    [generate_rebuttal] and [generate_rebuttal_irac] end (by returning or
    by raising) with [position] and [opening_argument] as they found them. *)
Theorem rebuttal_leaves_state_unchanged
    (modules : sys_modules) (llm : collaborator) (log : list call)
    (self : Debater.t) (question prompt_context opponent_opening : json) :
  let after :=
    final_state
      (result_of llm log
         (Debater.generate_rebuttal question prompt_context opponent_opening
            self)) in
  let after_irac :=
    final_state
      (result_of llm log
         (Debater.generate_rebuttal_irac modules question prompt_context
            opponent_opening self)) in
  (Debater.position after = Debater.position self /\
   Debater.opening_argument after = Debater.opening_argument self) /\
  (Debater.position after_irac = Debater.position self /\
   Debater.opening_argument after_irac = Debater.opening_argument self).
Proof.
  intros after after_irac. subst after after_irac.
  rewrite generate_rebuttal_frame, generate_rebuttal_irac_frame.
  repeat split.
Qed.

(** C8: an opening call (vanilla or IRAC) that raises, for whatever
    reason and in particular on a response rejected by validation, leaves
    the Debater exactly as it was. *)
Theorem opening_atomic_on_failure
    (modules : sys_modules) (llm : collaborator) (log : list call)
    (self : Debater.t) (op : operation) :
  is_opening op = true ->
  is_raised (result_of llm log (perform modules op self)) = true ->
  final_state (result_of llm log (perform modules op self)) = self.
Proof.
  destruct op; simpl; intros Hop Hraised; try discriminate.
  - now apply generate_opening_raises_frame.
  - now apply generate_opening_irac_raises_frame.
Qed.

Lemma opening_atomic_on_failure_witness :
  let op := Opening sample_question JNull sample_choices (JStr "A") in
  let llm := mock (JDict {[ "position" := JStr "A" ]}) in
  fails_with SchemaError (result_of llm [] (perform repo_modules op sample_debater)) /\
  final_state (result_of llm [] (perform repo_modules op sample_debater))
    = sample_debater.
Proof.
  intros op llm. split.
  - reflexivity.
  - apply (opening_atomic_on_failure repo_modules llm [] sample_debater op);
      reflexivity.
Defined.

(** C10: when the collaborator answers a vanilla opening request with a
    response that has [position] but not [argument], the call raises the
    "Invalid debater response" [ValueError] (a SchemaError). *)
Theorem generate_opening_requires_argument
    (llm : collaborator) (log : list call) (self : Debater.t)
    (question prompt_context : json) (choices : list json) (position : json)
    (response : json) :
  answers llm log
    (Debater.generate_opening question prompt_context choices position self)
    (Returns response) ->
  py_contains "position" response = Ok true ->
  py_contains "argument" response = Ok false ->
  result_of llm log
    (Debater.generate_opening question prompt_context choices position self)
  = Raised self (ValueError [Lit "Invalid debater response: "; Fmt response])
  /\ error_kind_of
       (ValueError [Lit "Invalid debater response: "; Fmt response])
     = SchemaError.
Proof.
  intros Hans Hpos Harg. split; [|reflexivity].
  unfold result_of, Debater.generate_opening in *.
  destruct (prompts_experimental.get_debater_opening_prompt _ _ _ _);
    exec_in Hans; [|contradiction].
  exec. rewrite Hans. cbn. unfold py_not_in. rewrite Hpos. cbn.
  rewrite Harg. reflexivity.
Qed.

Lemma generate_opening_requires_argument_witness :
  let response := JDict {[ "position" := JStr "A" ]} in
  result_of (mock response) []
    (Debater.generate_opening sample_question JNull sample_choices (JStr "A")
       sample_debater)
  = Raised sample_debater
      (ValueError [Lit "Invalid debater response: "; Fmt response])
  /\ error_kind_of
       (ValueError [Lit "Invalid debater response: "; Fmt response])
     = SchemaError.
Proof.
  intros response.
  apply (generate_opening_requires_argument (mock response) [] sample_debater);
    reflexivity.
Defined.

(** *** The IRAC opening and its import *)

(** [src.agents.prompts] does not define the IRAC opening builder; the
    experimental module does. *)
Lemma irac_opening_builder_location :
  import_from repo_modules "src.agents.prompts"
    "get_debater_opening_prompt_irac"
  = Err (ImportError "src.agents.prompts" "get_debater_opening_prompt_irac")
  /\
  import_from repo_modules "src.agents.prompts_experimental"
    "get_debater_opening_prompt_irac"
  = Ok (OpeningPromptBuilder
          prompts_experimental.get_debater_opening_prompt_irac).
Proof. split; reflexivity. Qed.

(** C4: with the modules of the repository, [generate_opening_irac] raises
    [ImportError] on every input, as a computation that never consults the
    collaborator; the error is not a SchemaError and the validation of the
    [irac] mapping is never reached. *)
Theorem generate_opening_irac_import_error
    (self : Debater.t) (question prompt_context : json) (choices : list json)
    (position : json) :
  Debater.generate_opening_irac repo_modules question prompt_context choices
    position self
  = Pure (Raised self
            (ImportError "src.agents.prompts" "get_debater_opening_prompt_irac"))
  /\ error_kind_of
       (ImportError "src.agents.prompts" "get_debater_opening_prompt_irac")
     <> SchemaError.
Proof. split; [reflexivity|discriminate]. Qed.

(** What the validation written after the import does once the import
    resolves: a response without [position], without [irac], or whose
    [irac] mapping lacks one of the four keys is rejected with a
    SchemaError. *)
Lemma generate_opening_irac_validation
    (modules : sys_modules) (llm : collaborator) (log : list call)
    (self : Debater.t) (question prompt_context : json) (choices : list json)
    (position : json) (m : gmap string json) :
  answers llm log
    (Debater.generate_opening_irac modules question prompt_context choices
       position self)
    (Returns (JDict m)) ->
  (m !! "position" = None \/ m !! "irac" = None \/
   exists irac key,
     m !! "irac" = Some (JDict irac) /\ In key Debater.required_keys /\
     irac !! key = None) ->
  fails_with SchemaError
    (result_of llm log
       (Debater.generate_opening_irac modules question prompt_context choices
          position self)).
Proof.
  intros Hans Hbad.
  unfold result_of, Debater.generate_opening_irac in *.
  destruct (import_from modules _ _) as [f|]; exec_in Hans; [|contradiction].
  exec.
  destruct (call_opening_builder f _ _ _ _); exec_in Hans; [|contradiction].
  exec. rewrite Hans. cbn.
  destruct (m !! "position") eqn:Hp; cbn; [|reflexivity].
  destruct (m !! "irac") as [irac|] eqn:Hi; cbn; [|reflexivity].
  destruct Hbad as [Hbad|[Hbad|(irac' & key & Hirac & Hkey & Hmiss)]];
    try discriminate.
  injection Hirac as ->.
  do 4 (rewrite ?py_not_in_dict;
        match goal with
        | |- context [irac' !! ?k] =>
            destruct (irac' !! k) eqn:?; exec; [|reflexivity]
        end).
  simpl in Hkey. intuition (subst; congruence).
Qed.

(** *** The position of an opening *)

(** C5, as stated, fails: assigned "A", the collaborator answers with
    position "B"; the opening succeeds and both the returned opening and
    the stored position carry "B". *)
Lemma opening_position_not_enforced :
  exists self' opening,
    result_of (mock (sample_opening "B")) []
      (Debater.generate_opening sample_question JNull sample_choices
         (JStr "A") sample_debater)
    = Returned self' opening /\
    py_getitem opening "position" <> Ok (JStr "A") /\
    Debater.position self' <> JStr "A".
Proof.
  eexists _, _. split; [reflexivity|]. split; discriminate.
Qed.

(** C5 (amended): when an opening call with assigned label [l] succeeds,
    what it returns is the collaborator's response itself, stored as
    [opening_argument]; the [position] field of that response is what is
    stored as the Debater's position.  Hence the stored position is [l]
    exactly when the collaborator's response carries [l]. *)
Theorem opening_position_is_collaborators
    (modules : sys_modules) (llm : collaborator) (log : list call)
    (self self' : Debater.t) (irac : bool)
    (question prompt_context : json) (choices : list json) (l : string)
    (opening : json) :
  let op :=
    if irac then OpeningIrac question prompt_context choices (JStr l)
    else Opening question prompt_context choices (JStr l) in
  In l Judge.labels ->
  result_of llm log (perform modules op self) = Returned self' opening ->
  answers llm log (perform modules op self) (Returns opening) /\
  Debater.opening_argument self' = opening /\
  py_getitem opening "position" = Ok (Debater.position self') /\
  (Debater.position self' = JStr l <->
   py_getitem opening "position" = Ok (JStr l)).
Proof.
  intros op _ Hres.
  assert (H3 : answers llm log (perform modules op self) (Returns opening) /\
               Debater.opening_argument self' = opening /\
               py_getitem opening "position" = Ok (Debater.position self')).
  { subst op. unfold result_of in Hres.
    destruct irac; simpl in *.
    - unfold Debater.generate_opening_irac in *.
      revert Hres. exec_split; intros Hres; try discriminate.
      injection Hres as <- <-. repeat split; (assumption || reflexivity).
    - unfold Debater.generate_opening in *.
      revert Hres. exec_split; intros Hres; try discriminate.
      injection Hres as <- <-. repeat split; (assumption || reflexivity). }
  destruct H3 as (Ha & Hb & Hc). repeat split; try assumption.
  - intros Heq. now rewrite Hc, Heq.
  - intros Heq. rewrite Hc in Heq. now injection Heq.
Qed.

Lemma opening_position_is_collaborators_witness :
  let run_opening :=
    perform repo_modules
      (Opening sample_question JNull sample_choices (JStr "A"))
      sample_debater in
  let self' :=
    Debater.set_opening_argument (sample_opening "A")
      (Debater.set_position (JStr "A") sample_debater) in
  answers (mock (sample_opening "A")) [] run_opening
    (Returns (sample_opening "A")) /\
  Debater.opening_argument self' = sample_opening "A" /\
  py_getitem (sample_opening "A") "position" = Ok (Debater.position self') /\
  (Debater.position self' = JStr "A" <->
   py_getitem (sample_opening "A") "position" = Ok (JStr "A")).
Proof.
  intros run_opening self'.
  apply (opening_position_is_collaborators repo_modules
           (mock (sample_opening "A")) [] sample_debater self' false
           sample_question JNull sample_choices "A" (sample_opening "A")).
  - simpl. auto.
  - reflexivity.
Defined.

(** ** The Judge *)

Lemma import_judge_irac :
  import_from repo_modules "src.agents.prompts_experimental"
    "get_judge_decision_prompt_irac"
  = Ok (JudgePromptBuilder prompts_experimental.get_judge_decision_prompt_irac).
Proof. reflexivity. Qed.

Lemma import_judge_hybrid :
  import_from repo_modules "src.agents.prompts_experimental"
    "get_judge_decision_prompt_hybrid"
  = Ok (JudgePromptBuilder
          prompts_experimental.get_judge_decision_prompt_hybrid).
Proof. reflexivity. Qed.

(** No decision operation assigns to [self]. *)
Lemma decision_operation_frame (modules : sys_modules) (llm : collaborator)
    (log : list call) (self : Judge.t) (v : variant)
    (q c : json) (ch : list json) (h : json) :
  final_state (result_of llm log (decision_operation modules v q c ch h self))
  = self.
Proof.
  unfold result_of.
  destruct v; simpl;
    [unfold Judge.make_decision
    |unfold Judge.make_decision_irac
    |unfold Judge.make_decision_hybrid];
    exec_split; reflexivity.
Qed.

(** Executes a decision body up to its request, uses the premise that
    the request is answered alike in both runs, and finishes the
    validation on the common reply. *)
Ltac repeat_decision :=
  exec;
  lazymatch goal with
  | |- (forall rp, ?l1 = rp -> ?l2 = rp) -> _ =>
      let H := fresh "Hsame" in
      intros H; rewrite (H _ eq_refl); clear H; exec_split; reflexivity
  | |- (forall rp, False -> False) -> _ => intros _; reflexivity
  | |- context [match ?x with _ => _ end] =>
      destruct x eqn:?; repeat_decision
  end.

(** The outcome of a decision call depends on the request log only
    through the collaborator's answer to its one request. *)
Lemma decision_repeatable (modules : sys_modules) (llm : collaborator)
    (log log2 : list call) (self : Judge.t) (v : variant)
    (q c : json) (ch : list json) (h : json) :
  (forall rp,
     answers llm log (decision_operation modules v q c ch h self) rp ->
     answers llm log2 (decision_operation modules v q c ch h self) rp) ->
  snd (run llm log2 (decision_operation modules v q c ch h self))
  = snd (run llm log (decision_operation modules v q c ch h self)).
Proof.
  destruct v; simpl;
    [unfold Judge.make_decision
    |unfold Judge.make_decision_irac
    |unfold Judge.make_decision_hybrid];
    repeat_decision.
Qed.

(** C7: a decision call leaves the Judge as it found it, whatever the
    collaborator does; and when the request of a second call with the
    same arguments receives the response the request of the first call
    received, the second call ends with the same outcome (same returned
    decision or same exception). *)
Theorem decision_stateless_and_repeatable
    (modules : sys_modules) (llm : collaborator) (log : list call)
    (self : Judge.t) (v : variant)
    (question prompt_context : json) (choices : list json)
    (debate_history : json) :
  let first :=
    run llm log
      (decision_operation modules v question prompt_context choices
         debate_history self) in
  let second :=
    run llm (fst first)
      (decision_operation modules v question prompt_context choices
         debate_history (final_state (snd first))) in
  final_state (snd first) = self /\
  ((forall rp,
      answers llm log
        (decision_operation modules v question prompt_context choices
           debate_history self) rp ->
      answers llm (fst first)
        (decision_operation modules v question prompt_context choices
           debate_history self) rp) ->
   snd second = snd first).
Proof.
  intros first second.
  assert (Hframe : final_state (snd first) = self)
    by apply decision_operation_frame.
  split; [exact Hframe|].
  intros Hsame. subst second. rewrite Hframe. subst first.
  now apply decision_repeatable.
Qed.

Lemma decision_stateless_and_repeatable_witness :
  let payload := JDict (sample_decision "debater_x" "A") in
  let llm := twice_then_fail payload in
  let first :=
    run llm []
      (Judge.make_decision sample_question JNull sample_choices
         sample_history sample_judge) in
  let second :=
    run llm (fst first)
      (Judge.make_decision sample_question JNull sample_choices
         sample_history (final_state (snd first))) in
  snd first = Returned sample_judge payload /\
  final_state (snd first) = sample_judge /\ snd second = snd first.
Proof.
  intros payload llm first second. split; [reflexivity|].
  destruct (decision_stateless_and_repeatable repo_modules llm []
              sample_judge Vanilla sample_question JNull sample_choices
              sample_history) as (Hframe & Hrepeat).
  split; [exact Hframe|].
  apply Hrepeat. intros rp Hrp. exact Hrp.
Defined.

(** *** The hybrid decision *)

(** Once the hybrid prompt has been built, the two opening positions have
    been read from the transcript without error. *)
Lemma hybrid_positions_available (llm : collaborator) (log : list call)
    (self : Judge.t) (q c : json) (ch : list json) (h : json) (rp : reply) :
  answers llm log (Judge.make_decision_hybrid repo_modules q c ch h self) rp ->
  exists x_pos y_pos,
    opening_position h "debater_x" = Ok x_pos /\
    opening_position h "debater_y" = Ok y_pos.
Proof.
  unfold Judge.make_decision_hybrid. rewrite import_judge_hybrid.
  intros Hans. exec_in Hans.
  unfold prompts_experimental.get_judge_decision_prompt_hybrid in Hans.
  unfold opening_position.
  destruct (choices_text ch); cbn in Hans; [|contradiction].
  destruct (py_get h "debater_x" empty_dict) as [dx|]; cbn in Hans |- *;
    [|contradiction].
  destruct (py_get h "debater_y" empty_dict) as [dy|]; cbn in Hans |- *;
    [|contradiction].
  destruct (py_get2 dx "opening" "position" empty_str) as [xp|];
    cbn in Hans |- *; [|contradiction].
  destruct (py_get2 dy "opening" "position" empty_str) as [yp|];
    cbn in Hans |- *; [|contradiction].
  eauto.
Qed.

(** The verdict of the hybrid operation on a payload whose decision is a
    label, as a function of the winner and of the two stored positions. *)
Lemma hybrid_verdict (llm : collaborator) (log : list call)
    (self : Judge.t) (q c : json) (ch : list json) (h : json)
    (m : gmap string json) (l : string) (x_pos y_pos : json) :
  answers llm log (Judge.make_decision_hybrid repo_modules q c ch h self)
    (Returns (JDict m)) ->
  m !! "decision" = Some (JStr l) ->
  In l Judge.labels ->
  opening_position h "debater_x" = Ok x_pos ->
  opening_position h "debater_y" = Ok y_pos ->
  result_of llm log (Judge.make_decision_hybrid repo_modules q c ch h self) =
  if py_eq (winner_of m) (JStr "debater_x") && py_ne (JStr l) x_pos then
    Raised self
      (ValueError [Lit "Decision "; Fmt (JStr l);
                   Lit " doesn't match winner debater_x's position ";
                   Fmt x_pos])
  else if py_eq (winner_of m) (JStr "debater_y") && py_ne (JStr l) y_pos then
    Raised self
      (ValueError [Lit "Decision "; Fmt (JStr l);
                   Lit " doesn't match winner debater_y's position ";
                   Fmt y_pos])
  else Returned self (JDict m).
Proof.
  intros Hans Hdec Hl Hx Hy.
  assert (Hlabel : py_not_in_list (JStr l) Judge.labels = false)
    by (apply py_not_in_list_false; eauto).
  unfold result_of, Judge.make_decision_hybrid in *.
  rewrite import_judge_hybrid in *. exec_in Hans. exec.
  destruct (prompts_experimental.get_judge_decision_prompt_hybrid q c ch h);
    cbn in Hans; [|contradiction].
  cbn. rewrite Hans. cbn. rewrite Hdec. cbn. rewrite Hlabel. cbn.
  fold (winner_of m).
  unfold opening_position in Hx, Hy.
  destruct (py_get h "debater_x" empty_dict) as [dx|]; cbn in Hx;
    [|discriminate].
  destruct (py_get h "debater_y" empty_dict) as [dy|]; cbn in Hy;
    [|discriminate].
  cbn. rewrite Hx. cbn. rewrite Hy. cbn.
  destruct (py_eq (winner_of m) (JStr "debater_x")); cbn;
    [destruct (py_ne (JStr l) x_pos); cbn; [reflexivity|]|];
    (destruct (py_eq (winner_of m) (JStr "debater_y")); cbn;
       [destruct (py_ne (JStr l) y_pos)|]; reflexivity).
Qed.

(** C1: the collaborator having answered a hybrid decision request with a
    payload whose decision is a label [l] and whose winner is [side]
    ([debater_x] or [debater_y]), the call compares [l] with the position
    [pos] of [side]'s opening in the transcript: if they differ it raises
    the "Decision ... doesn't match winner ..." [ValueError] (the spec's
    ConsistencyError), otherwise it returns the payload.  [py_ne (JStr l) pos]
    is false exactly when [pos] is the string [l]. *)
Theorem hybrid_decision_matches_winner
    (llm : collaborator) (log : list call) (self : Judge.t)
    (question prompt_context : json) (choices : list json)
    (debate_history : json) (m : gmap string json)
    (l side : string) (pos : json) :
  answers llm log
    (Judge.make_decision_hybrid repo_modules question prompt_context choices
       debate_history self)
    (Returns (JDict m)) ->
  m !! "decision" = Some (JStr l) ->
  In l Judge.labels ->
  side = "debater_x" \/ side = "debater_y" ->
  m !! "winner" = Some (JStr side) ->
  opening_position debate_history side = Ok pos ->
  let mismatch :=
    ValueError [Lit "Decision "; Fmt (JStr l);
                Lit (" doesn't match winner " +:+ side +:+ "'s position ");
                Fmt pos] in
  result_of llm log
    (Judge.make_decision_hybrid repo_modules question prompt_context choices
       debate_history self)
  = (if py_ne (JStr l) pos then Raised self mismatch
     else Returned self (JDict m)) /\
  error_kind_of mismatch = ConsistencyError /\
  (py_ne (JStr l) pos = false <-> pos = JStr l).
Proof.
  intros Hans Hdec Hl Hside Hwin Hpos mismatch.
  destruct (hybrid_positions_available _ _ _ _ _ _ _ _ Hans)
    as (x_pos & y_pos & Hx & Hy).
  rewrite (hybrid_verdict _ _ _ _ _ _ _ _ _ _ _ Hans Hdec Hl Hx Hy).
  assert (Hw : winner_of m = JStr side) by (unfold winner_of; now rewrite Hwin).
  rewrite Hw. subst mismatch.
  split; [|split].
  - destruct Hside as [-> | ->]; simpl.
    + rewrite Hx in Hpos. injection Hpos as ->. reflexivity.
    + rewrite Hy in Hpos. injection Hpos as ->. reflexivity.
  - destruct Hside as [-> | ->]; reflexivity.
  - unfold py_ne. rewrite negb_false_iff. apply py_eq_str_l.
Qed.

Lemma hybrid_decision_matches_winner_witness :
  let decide payload :=
    result_of (mock (JDict payload)) []
      (Judge.make_decision_hybrid repo_modules sample_question JNull
         sample_choices sample_history sample_judge) in
  decide (sample_decision "debater_x" "B")
  = Raised sample_judge
      (ValueError [Lit "Decision "; Fmt (JStr "B");
                   Lit " doesn't match winner debater_x's position ";
                   Fmt (JStr "A")]) /\
  decide (sample_decision "debater_x" "A")
  = Returned sample_judge (JDict (sample_decision "debater_x" "A")).
Proof.
  intros decide. split.
  - apply (hybrid_decision_matches_winner
             (mock (JDict (sample_decision "debater_x" "B"))) [] sample_judge
             sample_question JNull sample_choices sample_history
             (sample_decision "debater_x" "B") "B" "debater_x" (JStr "A"));
      try reflexivity; simpl; auto.
  - apply (hybrid_decision_matches_winner
             (mock (JDict (sample_decision "debater_x" "A"))) [] sample_judge
             sample_question JNull sample_choices sample_history
             (sample_decision "debater_x" "A") "A" "debater_x" (JStr "A"));
      try reflexivity; simpl; auto.
Defined.

(** C9: the collaborator having answered a hybrid decision request with a
    payload whose decision is a label, if the value read for [winner]
    (the empty string when the key is absent) is neither ["debater_x"] nor
    ["debater_y"], the call returns the payload: no consistency check is
    made and the winner is not validated. *)
Theorem hybrid_check_only_for_named_winner
    (llm : collaborator) (log : list call) (self : Judge.t)
    (question prompt_context : json) (choices : list json)
    (debate_history : json) (m : gmap string json) (l : string) :
  answers llm log
    (Judge.make_decision_hybrid repo_modules question prompt_context choices
       debate_history self)
    (Returns (JDict m)) ->
  m !! "decision" = Some (JStr l) ->
  In l Judge.labels ->
  winner_of m <> JStr "debater_x" ->
  winner_of m <> JStr "debater_y" ->
  result_of llm log
    (Judge.make_decision_hybrid repo_modules question prompt_context choices
       debate_history self)
  = Returned self (JDict m).
Proof.
  intros Hans Hdec Hl Hnx Hny.
  destruct (hybrid_positions_available _ _ _ _ _ _ _ _ Hans)
    as (x_pos & y_pos & Hx & Hy).
  rewrite (hybrid_verdict _ _ _ _ _ _ _ _ _ _ _ Hans Hdec Hl Hx Hy).
  destruct (py_eq (winner_of m) (JStr "debater_x")) eqn:Ex.
  { apply py_eq_str_r in Ex. contradiction. }
  destruct (py_eq (winner_of m) (JStr "debater_y")) eqn:Ey.
  { apply py_eq_str_r in Ey. contradiction. }
  reflexivity.
Qed.

Lemma hybrid_check_only_for_named_winner_witness :
  let decide payload :=
    result_of (mock (JDict payload)) []
      (Judge.make_decision_hybrid repo_modules sample_question JNull
         sample_choices sample_history sample_judge) in
  decide (sample_decision "tie" "D")
  = Returned sample_judge (JDict (sample_decision "tie" "D")) /\
  decide {[ "decision" := JStr "C" ]}
  = Returned sample_judge (JDict {[ "decision" := JStr "C" ]}).
Proof.
  intros decide. split.
  - apply (hybrid_check_only_for_named_winner
             (mock (JDict (sample_decision "tie" "D"))) [] sample_judge
             sample_question JNull sample_choices sample_history
             (sample_decision "tie" "D") "D");
      try reflexivity; try discriminate; simpl; auto.
  - apply (hybrid_check_only_for_named_winner
             (mock (JDict {[ "decision" := JStr "C" ]})) [] sample_judge
             sample_question JNull sample_choices sample_history
             {[ "decision" := JStr "C" ]} "C");
      try reflexivity; try discriminate; simpl; auto.
Defined.

(** *** The vanilla and IRAC decisions *)

Lemma decision_ok_iff (m : gmap string json) :
  decision_ok m <->
  exists d, m !! "decision" = Some d /\ py_not_in_list d Judge.labels = false.
Proof.
  unfold decision_ok. split.
  - intros (l & Hd & Hl). exists (JStr l). split; [done|].
    apply py_not_in_list_false. eauto.
  - intros (d & Hd & Hl). apply py_not_in_list_false in Hl.
    destruct Hl as (l & -> & Hl). eauto.
Qed.

(** Membership either works for every key or for none: it depends on the
    type of the container only. *)
Lemma py_contains_total (k k' : string) (s : json) (b : bool) :
  py_contains k s = Ok b -> exists b', py_contains k' s = Ok b'.
Proof. destruct s; simpl; intros H; try discriminate; eauto. Qed.

Lemma synthesis_check_returns (keys : list string) (s response : json)
    (self : Judge.t) :
  (forall key, In key keys -> py_contains key s = Ok true) ->
  synthesis_check keys s response self = Returned self response.
Proof.
  induction keys as [|key rest IH]; intros Hall; simpl; [reflexivity|].
  unfold py_not_in. rewrite (Hall key) by (simpl; auto). simpl.
  apply IH. intros key' Hin. apply Hall. simpl. auto.
Qed.

Lemma synthesis_check_schema (keys : list string) (s response : json)
    (self : Judge.t) :
  fails_with SchemaError (synthesis_check keys s response self) <->
  exists key, In key keys /\ py_contains key s = Ok false.
Proof.
  induction keys as [|key rest IH]; simpl.
  - split; [contradiction|]. intros (key & [] & _).
  - unfold py_not_in.
    destruct (py_contains key s) as [[]|e] eqn:Hkey; simpl.
    + rewrite IH. split.
      * intros (key' & Hin & Hc). eauto.
      * intros (key' & [<-|Hin] & Hc); [congruence|eauto].
    + split; [eauto|reflexivity].
    + split.
      * destruct s; simpl in Hkey; try discriminate;
          injection Hkey as <-; discriminate.
      * intros (key' & _ & Hc).
        destruct (py_contains_total key' key s false Hc) as (b' & Hb').
        congruence.
Qed.

Lemma synthesis_check_consistency (keys : list string) (s response : json)
    (self : Judge.t) :
  ~ fails_with ConsistencyError (synthesis_check keys s response self).
Proof.
  induction keys as [|key rest IH]; simpl; [tauto|].
  unfold py_not_in.
  destruct (py_contains key s) as [[]|e] eqn:Hkey; simpl;
    [assumption|discriminate|].
  destruct s; simpl in Hkey; try discriminate;
    injection Hkey as <-; discriminate.
Qed.

(** The verdict of the vanilla operation on a dict payload. *)
Lemma vanilla_verdict (llm : collaborator) (log : list call)
    (self : Judge.t) (q c : json) (ch : list json) (h : json)
    (m : gmap string json) :
  answers llm log (Judge.make_decision q c ch h self) (Returns (JDict m)) ->
  result_of llm log (Judge.make_decision q c ch h self) =
  match m !! "decision" with
  | None =>
      Raised self (ValueError [Lit "Invalid judge response: "; Fmt (JDict m)])
  | Some d =>
      if py_not_in_list d Judge.labels then
        Raised self (ValueError [Lit "Invalid decision choice: "; Fmt d])
      else Returned self (JDict m)
  end.
Proof.
  intros Hans. unfold result_of, Judge.make_decision in *.
  destruct (prompts_experimental.get_judge_decision_prompt q c ch h);
    exec_in Hans; [|contradiction].
  exec. rewrite Hans. cbn.
  destruct (m !! "decision") as [d|]; cbn; [|reflexivity].
  destruct (py_not_in_list d Judge.labels); reflexivity.
Qed.

(** The verdict of the IRAC operation on a dict payload. *)
Lemma irac_verdict (llm : collaborator) (log : list call)
    (self : Judge.t) (q c : json) (ch : list json) (h : json)
    (m : gmap string json) :
  answers llm log (Judge.make_decision_irac repo_modules q c ch h self)
    (Returns (JDict m)) ->
  result_of llm log (Judge.make_decision_irac repo_modules q c ch h self) =
  match m !! "decision" with
  | None =>
      Raised self
        (ValueError [Lit "Invalid judge IRAC response: "; Fmt (JDict m)])
  | Some d =>
      if py_not_in_list d Judge.labels then
        Raised self (ValueError [Lit "Invalid decision choice: "; Fmt d])
      else
        match m !! "synthesis" with
        | None =>
            Raised self
              (ValueError [Lit "Missing synthesis in judge IRAC response: ";
                           Fmt (JDict m)])
        | Some s => synthesis_check Judge.required_keys s (JDict m) self
        end
  end.
Proof.
  intros Hans. unfold result_of, Judge.make_decision_irac in *.
  rewrite import_judge_irac in *. exec_in Hans. exec.
  destruct (prompts_experimental.get_judge_decision_prompt_irac q c ch h);
    cbn in Hans; [|contradiction].
  cbn. rewrite Hans. cbn.
  destruct (m !! "decision") as [d|]; cbn; [|reflexivity].
  destruct (py_not_in_list d Judge.labels); cbn; [reflexivity|].
  destruct (m !! "synthesis") as [s|]; cbn; [|reflexivity].
  destruct (py_not_in "issue" s) as [[]|]; cbn; try reflexivity.
  destruct (py_not_in "rule" s) as [[]|]; cbn; try reflexivity.
  destruct (py_not_in "application" s) as [[]|]; cbn; try reflexivity.
  destruct (py_not_in "conclusion" s) as [[]|]; cbn; reflexivity.
Qed.

#[local] Arguments synthesis_check : simpl never.

(** The conditions of the schema check do not look at [winner]. *)
Lemma schema_conditions_ignore_winner (m : gmap string json) (w : json) :
  (decision_ok (<["winner" := w]> m) <-> decision_ok m) /\
  (synthesis_test_fails (<["winner" := w]> m) <-> synthesis_test_fails m) /\
  (synthesis_complete (<["winner" := w]> m) <-> synthesis_complete m).
Proof.
  unfold decision_ok, synthesis_test_fails, synthesis_complete.
  rewrite !lookup_insert_ne by discriminate. tauto.
Qed.

(** C2, as stated, fails for the IRAC variant: a payload whose decision is
    the label "A" but which has no [synthesis] is rejected with a
    SchemaError. *)
Lemma irac_decision_rejects_missing_synthesis :
  let m : gmap string json :=
    {[ "decision" := JStr "A"; "winner" := JStr "debater_x" ]} in
  let call_irac :=
    Judge.make_decision_irac repo_modules sample_question JNull
      sample_choices sample_history sample_judge in
  decision_ok m /\
  answers (mock (JDict m)) [] call_irac (Returns (JDict m)) /\
  fails_with SchemaError (result_of (mock (JDict m)) [] call_irac).
Proof.
  intros m call_irac. split; [|split].
  - exists "A"%string. split; [reflexivity|simpl; auto].
  - reflexivity.
  - reflexivity.
Qed.

(** What a vanilla or IRAC decision call does with the payload the
    collaborator answered. *)
Lemma plain_decision_verdict
    (llm : collaborator) (log : list call) (self : Judge.t) (v : variant)
    (question prompt_context : json) (choices : list json)
    (debate_history : json) (m : gmap string json) :
  v <> Hybrid ->
  answers llm log
    (decision_operation repo_modules v question prompt_context choices
       debate_history self)
    (Returns (JDict m)) ->
  let o :=
    result_of llm log
      (decision_operation repo_modules v question prompt_context choices
         debate_history self) in
  (fails_with SchemaError o <->
   ~ decision_ok m \/ (v = IRAC /\ synthesis_test_fails m)) /\
  ~ fails_with ConsistencyError o /\
  (decision_ok m -> (v = IRAC -> synthesis_complete m) ->
   o = Returned self (JDict m)).
Proof.
  intros Hv Hans o. subst o.
  destruct v; [| |contradiction]; simpl in *.
  - rewrite (vanilla_verdict _ _ _ _ _ _ _ _ Hans).
    rewrite decision_ok_iff.
    destruct (m !! "decision") as [d|] eqn:Hd; simpl.
    + destruct (py_not_in_list d Judge.labels) eqn:Hl; simpl.
      * split; [|split].
        -- split; [|reflexivity]. intros _. left.
           intros (d' & Hd' & Hl'). congruence.
        -- discriminate.
        -- intros (d' & Hd' & Hl'). congruence.
      * split; [|split]; [|tauto|reflexivity].
        split; [contradiction|].
        intros [Hno|[Hirac _]]; [|discriminate]. apply Hno. eauto.
    + split; [|split].
      * split; [|reflexivity]. intros _. left.
        intros (d' & Hd' & _). discriminate.
      * discriminate.
      * intros (d' & Hd' & _). discriminate.
  - rewrite (irac_verdict _ _ _ _ _ _ _ _ Hans).
    rewrite decision_ok_iff.
    unfold synthesis_test_fails, synthesis_complete.
    destruct (m !! "decision") as [d|] eqn:Hd; simpl.
    + destruct (py_not_in_list d Judge.labels) eqn:Hl; simpl.
      * split; [|split].
        -- split; [|reflexivity]. intros _. left.
           intros (d' & Hd' & Hl'). congruence.
        -- discriminate.
        -- intros (d' & Hd' & Hl'). congruence.
      * destruct (m !! "synthesis") as [s|] eqn:Hs; [|simpl].
        -- split; [|split].
           ++ rewrite synthesis_check_schema. split.
              ** intros (key & Hin & Hc). right. split; [reflexivity|].
                 right. exists s, key. auto.
              ** intros [Hno|[_ [Habs|(s' & key & Hs' & Hin & Hc)]]].
                 --- exfalso. apply Hno. eauto.
                 --- discriminate.
                 --- injection Hs' as <-. exists key. auto.
           ++ apply synthesis_check_consistency.
           ++ intros _ Hcomplete.
              destruct (Hcomplete eq_refl) as (s' & Hs' & Hall).
              injection Hs' as <-. now apply synthesis_check_returns.
        -- split; [|split].
           ++ split; [|reflexivity]. intros _. right. auto.
           ++ discriminate.
           ++ intros _ Hcomplete.
              destruct (Hcomplete eq_refl) as (s' & Hs' & _). discriminate.
    + split; [|split].
      * split; [|reflexivity]. intros _. left.
        intros (d' & Hd' & _). discriminate.
      * discriminate.
      * intros (d' & Hd' & _). discriminate.
Qed.

Lemma synthesis_check_cons (key : string) (rest : list string)
    (s response : json) (self : Judge.t) :
  synthesis_check (key :: rest) s response self =
  match py_not_in key s with
  | Err e => Raised self e
  | Ok true =>
      Raised self
        (ValueError [Lit "Missing synthesis IRAC component '";
                     Fmt (JStr key); Lit "': "; Fmt response])
  | Ok false => synthesis_check rest s response self
  end.
Proof. reflexivity. Qed.

(** For a mapping, the [in] tests are key lookups. *)
Lemma synthesis_test_fails_mapping (m : gmap string json) :
  synthesis_absent_or_mapping m ->
  (synthesis_test_fails m <-> synthesis_incomplete m).
Proof.
  unfold synthesis_absent_or_mapping, synthesis_test_fails,
    synthesis_incomplete.
  destruct (m !! "synthesis") as [[| | | | |s]|]; try contradiction;
    intros _; [|tauto].
  split.
  - intros [Habs|(s' & key & [= <-] & Hin & Hc)]; [discriminate|].
    right. exists s, key. repeat split; [assumption|].
    simpl in Hc. destruct (s !! key); [discriminate|reflexivity].
  - intros [Habs|(s' & key & [= <-] & Hin & Hc)]; [discriminate|].
    right. exists (JDict s), key. repeat split; [assumption|].
    simpl. now rewrite Hc.
Qed.

(** On a mapping the loop of key tests cannot raise [TypeError]: it
    rejects the payload or lets it through. *)
Lemma synthesis_check_mapping (keys : list string) (s : gmap string json)
    (response : json) (self : Judge.t) :
  synthesis_check keys (JDict s) response self = Returned self response \/
  fails_with SchemaError (synthesis_check keys (JDict s) response self).
Proof.
  induction keys as [|key rest IH]; [left; reflexivity|].
  rewrite synthesis_check_cons, py_not_in_dict.
  destruct (s !! key); [exact IH|right; reflexivity].
Qed.

(** C2 (amended): the collaborator having answered a vanilla or IRAC
    decision request with a payload (for IRAC, one whose synthesis is
    absent or a mapping), the call raises a SchemaError exactly when the
    payload's decision is absent or not one of the four labels or, for
    the IRAC variant only, when its synthesis is absent or lacks one of
    the keys issue, rule, application, conclusion.  The call never raises
    a ConsistencyError, a payload that is not rejected is returned as it
    is, and whether the call raises a SchemaError is the same for the
    payload with its winner replaced by any value [w]. *)
Theorem plain_decision_schema
    (llm llm' : collaborator) (log log' : list call) (self : Judge.t)
    (v : variant) (question prompt_context : json) (choices : list json)
    (debate_history : json) (m : gmap string json) (w : json) :
  let invocation :=
    decision_operation repo_modules v question prompt_context choices
      debate_history self in
  v <> Hybrid ->
  (v = IRAC -> synthesis_absent_or_mapping m) ->
  answers llm log invocation (Returns (JDict m)) ->
  answers llm' log' invocation (Returns (JDict (<["winner" := w]> m))) ->
  let o := result_of llm log invocation in
  let o' := result_of llm' log' invocation in
  (fails_with SchemaError o <->
   ~ decision_ok m \/ (v = IRAC /\ synthesis_incomplete m)) /\
  ~ fails_with ConsistencyError o /\
  (~ fails_with SchemaError o -> o = Returned self (JDict m)) /\
  (fails_with SchemaError o' <-> fails_with SchemaError o).
Proof.
  intros invocation Hv Hshape Hans Hans' o o'. subst invocation o o'.
  destruct (plain_decision_verdict _ _ _ _ _ _ _ _ _ Hv Hans)
    as (Hschema & Hcons & _).
  destruct (plain_decision_verdict _ _ _ _ _ _ _ _ _ Hv Hans')
    as (Hschema' & _ & _).
  split; [|split; [exact Hcons|split]].
  - rewrite Hschema. split.
    + intros [Hno|[-> Hfail]]; [now left|]. right. split; [reflexivity|].
      now apply synthesis_test_fails_mapping; auto.
    + intros [Hno|[-> Hinc]]; [now left|]. right. split; [reflexivity|].
      now apply synthesis_test_fails_mapping; auto.
  - clear Hschema Hschema' Hcons Hans'.
    destruct v; [| |contradiction]; simpl in *.
    + rewrite (vanilla_verdict _ _ _ _ _ _ _ _ Hans).
      destruct (m !! "decision") as [d|]; simpl;
        [destruct (py_not_in_list d Judge.labels); simpl|];
        intros Hnot; try reflexivity; exfalso; apply Hnot; reflexivity.
    + rewrite (irac_verdict _ _ _ _ _ _ _ _ Hans).
      specialize (Hshape eq_refl). unfold synthesis_absent_or_mapping in Hshape.
      destruct (m !! "decision") as [d|]; simpl;
        [destruct (py_not_in_list d Judge.labels); simpl|];
        try (intros Hnot; exfalso; apply Hnot; reflexivity).
      destruct (m !! "synthesis") as [[| | | | |s]|]; try contradiction;
        [|intros Hnot; exfalso; apply Hnot; reflexivity].
      intros Hnot.
      destruct (synthesis_check_mapping Judge.required_keys s (JDict m) self)
        as [Hret|Hfail]; [exact Hret|contradiction].
  - rewrite Hschema', Hschema.
    destruct (schema_conditions_ignore_winner m w) as (-> & -> & _). tauto.
Qed.

Lemma plain_decision_schema_witness :
  let m : gmap string json :=
    {[ "decision" := JStr "A"; "winner" := JStr "debater_x";
       "synthesis" :=
         JDict {[ "issue" := JStr "i"; "rule" := JStr "r";
                  "application" := JStr "a" ]} ]} in
  let m' := <["winner" := JStr "tie"]> m in
  let invocation :=
    decision_operation repo_modules IRAC sample_question JNull
      sample_choices sample_history sample_judge in
  let o := result_of (mock (JDict m)) [] invocation in
  let o' := result_of (mock (JDict m')) [] invocation in
  (fails_with SchemaError o <->
   ~ decision_ok m \/ (IRAC = IRAC /\ synthesis_incomplete m)) /\
  ~ fails_with ConsistencyError o /\
  (~ fails_with SchemaError o -> o = Returned sample_judge (JDict m)) /\
  (fails_with SchemaError o' <-> fails_with SchemaError o).
Proof.
  intros m m' invocation o o'.
  apply (plain_decision_schema (mock (JDict m)) (mock (JDict m')) [] []
           sample_judge IRAC sample_question JNull sample_choices
           sample_history m (JStr "tie")).
  - discriminate.
  - intros _. exact I.
  - reflexivity.
  - reflexivity.
Defined.

(** * Further properties of the agents *)

(** ** Labelling of the choices *)

Lemma choice_lines_labels (choices : list json) (i : Z) (lines : list text) :
  choice_lines i choices = Ok lines ->
  List.length lines = List.length choices /\
  forall (n : nat) (choice : json),
    choices !! n = Some choice ->
    lines !! n = Some [Chr (65 + i + Z.of_nat n); Lit ") "; Fmt choice].
Proof.
  revert i lines. induction choices as [|c rest IH]; intros i lines; simpl.
  - intros [= <-]. split; [reflexivity|]. intros n choice H. discriminate.
  - unfold py_chr.
    destruct ((0 <=? 65 + i) && (65 + i <? 1114112)); simpl; [|discriminate].
    destruct (choice_lines (i + 1) rest) as [ls|] eqn:Hrest; simpl;
      [|discriminate].
    intros [= <-]. destruct (IH _ _ Hrest) as (Hlen & Hnth).
    split; [simpl; now rewrite Hlen|].
    intros [|n] choice Hn; simpl in *.
    + injection Hn as ->. now rewrite Z.add_0_r.
    + etransitivity; [exact (Hnth n choice Hn)|]. do 3 f_equal. lia.
Qed.

Lemma choice_lines_succeeds (choices : list json) (i : Z) :
  0 <= i ->
  i + Z.of_nat (List.length choices) <= max_choices ->
  exists lines, choice_lines i choices = Ok lines.
Proof.
  unfold max_choices.
  revert i. induction choices as [|c rest IH]; intros i Hi Hlen; simpl in *.
  - eauto.
  - unfold py_chr.
    replace ((0 <=? 65 + i) && (65 + i <? 1114112)) with true
      by (symmetry; apply andb_true_iff; split;
          [apply Z.leb_le|apply Z.ltb_lt]; lia).
    simpl. destruct (IH (i + 1)) as (ls & ->); [lia|lia|]. simpl. eauto.
Qed.

Lemma choice_lines_overflows (choices : list json) (i : Z) :
  0 <= i ->
  max_choices < i + Z.of_nat (List.length choices) ->
  choices <> [] ->
  choice_lines i choices
  = Err (ValueError [Lit "chr() arg not in range(0x110000)"]).
Proof.
  unfold max_choices.
  revert i. induction choices as [|c rest IH]; intros i Hi Hlen Hne; simpl in *.
  - contradiction.
  - unfold py_chr.
    destruct ((0 <=? 65 + i) && (65 + i <? 1114112)) eqn:Hin; simpl;
      [|reflexivity].
    apply andb_true_iff in Hin. destruct Hin as (_ & Hlt).
    apply Z.ltb_lt in Hlt.
    rewrite IH; [reflexivity|lia|lia|].
    destruct rest; [simpl in Hlen; lia|discriminate].
Qed.

(** X1: the list of answer choices is rendered with one line per choice,
    the [n]-th (from 0) labelled with the character of code [65 + n]
    ("A", "B", ...), as long as there are at most 1114047 choices; with
    more, [chr] raises [ValueError] and no prompt is built. *)
Theorem choices_text_labels_and_bound (choices : list json) :
  (Z.of_nat (List.length choices) <= max_choices ->
   exists lines,
     choice_lines 0 choices = Ok lines /\
     choices_text choices = Ok (py_join newline lines) /\
     List.length lines = List.length choices /\
     forall (n : nat) (choice : json),
       choices !! n = Some choice ->
       lines !! n = Some [Chr (65 + Z.of_nat n); Lit ") "; Fmt choice]) /\
  (max_choices < Z.of_nat (List.length choices) ->
   choices_text choices
   = Err (ValueError [Lit "chr() arg not in range(0x110000)"])).
Proof.
  split.
  - intros Hlen.
    destruct (choice_lines_succeeds choices 0) as (lines & Hlines);
      [lia|lia|].
    exists lines. destruct (choice_lines_labels _ _ _ Hlines) as (Hl & Hn).
    unfold choices_text. rewrite Hlines. simpl. repeat split; auto.
  - intros Hlen. unfold choices_text.
    rewrite choice_lines_overflows; [reflexivity|lia|lia|].
    intros ->. unfold max_choices in Hlen. simpl in Hlen. lia.
Qed.

Lemma choices_text_labels_and_bound_witness :
  exists lines,
    choice_lines 0 sample_choices = Ok lines /\
    choices_text sample_choices = Ok (py_join newline lines) /\
    List.length lines = List.length sample_choices /\
    forall (n : nat) (choice : json),
      sample_choices !! n = Some choice ->
      lines !! n = Some [Chr (65 + Z.of_nat n); Lit ") "; Fmt choice].
Proof.
  apply (proj1 (choices_text_labels_and_bound sample_choices)).
  unfold max_choices. simpl. lia.
Defined.

(** ** Openings and rebuttals *)

Lemma py_getitem_ok (r : json) (key : string) (v : json) :
  py_getitem r key = Ok v -> exists m, r = JDict m /\ m !! key = Some v.
Proof.
  destruct r; simpl; try discriminate.
  destruct (m !! key) eqn:E; [|discriminate]. intros [= <-]. eauto.
Qed.

Lemma py_not_in_dict_false (key : string) (m : gmap string json) :
  py_not_in key (JDict m) = Ok false -> is_Some (m !! key).
Proof.
  rewrite py_not_in_dict. destruct (m !! key); [eauto|discriminate].
Qed.

(** An opening call either leaves the Debater as it was (it raised), or
    stores the dict it returns together with that dict's position. *)
Lemma opening_outcome (modules : sys_modules) (llm : collaborator)
    (log : list call) (self : Debater.t) (op : operation) :
  is_opening op = true ->
  let o := result_of llm log (perform modules op self) in
  (is_raised o = true /\ final_state o = self) \/
  exists m pos,
    o = Returned (Debater.mk (Debater.client self) (Debater.name self)
                    pos (JDict m)) (JDict m) /\
    m !! "position" = Some pos.
Proof.
  intros Hop o. subst o. unfold result_of.
  destruct op; try discriminate; simpl;
    [unfold Debater.generate_opening|unfold Debater.generate_opening_irac];
    exec_split; try (left; split; reflexivity);
    right;
    match goal with
    | H : py_getitem ?r "position" = Ok ?v |- _ =>
        destruct (py_getitem_ok _ _ _ H) as (m & -> & Hm)
    end;
    eexists _, _; (split; [reflexivity|assumption]).
Qed.

(** X2: when the vanilla opening succeeds, the response it returns is a
    JSON object that has both a [position] and an [argument] key; the
    Debater keeps its client and name and now stores that object and its
    position, whatever it stored before. *)
Theorem generate_opening_success_shape
    (llm : collaborator) (log : list call) (self self' : Debater.t)
    (question prompt_context : json) (choices : list json) (position : json)
    (response : json) :
  result_of llm log
    (Debater.generate_opening question prompt_context choices position self)
  = Returned self' response ->
  exists m pos,
    response = JDict m /\
    m !! "position" = Some pos /\
    is_Some (m !! "argument") /\
    self' = Debater.mk (Debater.client self) (Debater.name self) pos (JDict m)
    /\ opened self'.
Proof.
  unfold result_of, Debater.generate_opening.
  exec_split; intros Hres; try discriminate.
  injection Hres as <- <-.
  match goal with
  | H : py_getitem ?r "position" = Ok ?v |- _ =>
      destruct (py_getitem_ok _ _ _ H) as (m & -> & Hm)
  end.
  exists m. eexists. repeat split; try eassumption.
  - subst. now apply py_not_in_dict_false.
  - exists m. split; [reflexivity|assumption].
Qed.

Lemma generate_opening_success_shape_witness :
  exists m pos,
    sample_opening "A" = JDict m /\
    m !! "position" = Some pos /\
    is_Some (m !! "argument") /\
    Debater.mk (ClientHandle 0) "Debater" (JStr "A") (sample_opening "A")
    = Debater.mk (Debater.client sample_debater) (Debater.name sample_debater)
        pos (JDict m)
    /\ opened
         (Debater.mk (ClientHandle 0) "Debater" (JStr "A") (sample_opening "A")).
Proof.
  apply (generate_opening_success_shape (mock (sample_opening "A")) []
           sample_debater _ sample_question JNull sample_choices (JStr "A")).
  reflexivity.
Defined.

(** Every operation keeps the client and the name, and keeps or
    establishes "unopened or opened". *)
Lemma perform_preserves (modules : sys_modules) (llm : collaborator)
    (log : list call) (self : Debater.t) (op : operation) :
  let self' := final_state (result_of llm log (perform modules op self)) in
  Debater.client self' = Debater.client self /\
  Debater.name self' = Debater.name self /\
  (unopened self \/ opened self -> unopened self' \/ opened self').
Proof.
  intros self'. subst self'.
  destruct (is_opening op) eqn:Hop.
  - destruct (opening_outcome modules llm log self op Hop)
      as [(_ & ->)|(m & pos & -> & Hm)]; simpl.
    + auto.
    + repeat split. intros _. right. exists m. auto.
  - destruct op; try discriminate; simpl.
    + rewrite generate_rebuttal_frame. auto.
    + rewrite generate_rebuttal_irac_frame. auto.
Qed.

(** X3: however a Debater constructed with [client] and [name] has been
    used (any operations, any collaborator behaviour, any outcomes), its
    client and name are the ones it was constructed with, and either it
    stores no opening and no position, or it stores an opening that is a
    JSON object whose [position] field is the stored position. *)
Theorem debater_state_invariant
    (modules : sys_modules) (llm : collaborator) (client : GroqClient)
    (name : string) (log : list call) (self : Debater.t) :
  reachable modules llm client name log self ->
  Debater.client self = client /\
  Debater.name self = name /\
  (unopened self \/ opened self).
Proof.
  induction 1 as [log|log log' self op o _ (IHc & IHn & IHs) Hrun].
  - repeat split. left. split; reflexivity.
  - assert (Ho : o = result_of llm log (perform modules op self))
      by (unfold result_of; now rewrite Hrun).
    destruct (perform_preserves modules llm log self op) as (Hc & Hn & Hs).
    rewrite <- Ho in *. rewrite Hc, Hn. auto.
Qed.

Lemma debater_state_invariant_witness :
  let llm := mock (sample_opening "A") in
  let op := Opening sample_question JNull sample_choices (JStr "A") in
  let self := final_state (result_of llm [] (perform repo_modules op sample_debater)) in
  Debater.client self = ClientHandle 0 /\
  Debater.name self = "Debater"%string /\
  (unopened self \/ opened self).
Proof.
  intros llm op self.
  apply (debater_state_invariant repo_modules llm (ClientHandle 0) "Debater"
           (fst (run llm [] (perform repo_modules op sample_debater)))).
  apply (reachable_step repo_modules llm (ClientHandle 0) "Debater" [] _
           sample_debater op
           (result_of llm [] (perform repo_modules op sample_debater))).
  - apply reachable_fresh.
  - reflexivity.
Defined.

(** X4: on a Debater that stores an opening, [generate_rebuttal] with a
    dict as opponent opening passes the sequence check and makes exactly
    one request, of 650 tokens, to its own client; the prompt carries the
    stored position, the stored opening's argument and the opponent's
    position and argument (empty string where absent).  The response is
    returned if it contains [rebuttal] and rejected with the
    "Invalid rebuttal response" [ValueError] if it does not. *)
Theorem rebuttal_after_opening
    (llm : collaborator) (log : list call) (self : Debater.t)
    (question prompt_context : json) (mine opponent : gmap string json) :
  Debater.opening_argument self = JDict mine ->
  mine !! "position" = Some (Debater.position self) ->
  let prompt :=
    mkPrompt Rebuttal
      [full_question question prompt_context;
       [Fmt (Debater.position self)];
       [Fmt (get_or mine "argument" empty_str)];
       [Fmt (get_or opponent "position" empty_str)];
       [Fmt (get_or opponent "argument" empty_str)];
       [Fmt (Debater.position self)]] in
  let request := mkCall (Debater.client self) prompt 650 in
  run llm log
    (Debater.generate_rebuttal question prompt_context (JDict opponent) self)
  = (request :: log, rebuttal_verdict self (llm (request :: log))).
Proof.
  intros Hmine Hpos prompt request. subst prompt request.
  assert (Htruthy : py_truthy (JDict mine) = true).
  { simpl. apply negb_true_iff, Nat.eqb_neq.
    intros Hsize. apply map_size_empty_iff in Hsize. subst mine.
    rewrite lookup_empty in Hpos. discriminate. }
  unfold Debater.generate_rebuttal, rebuttal_verdict. exec.
  rewrite Hmine, Htruthy. cbn.
  unfold prompts_experimental.get_debater_rebuttal_prompt, get_or.
  rewrite Hmine. cbn.
  destruct (llm _) as [response|info]; cbn; [|reflexivity].
  unfold py_not_in.
  destruct (py_contains "rebuttal" response) as [[]|]; reflexivity.
Qed.

Lemma rebuttal_after_opening_witness :
  let self :=
    Debater.mk (ClientHandle 0) "Debater" (JStr "A") (sample_opening "A") in
  let answer := JDict {[ "rebuttal" := JStr "They err." ]} in
  result_of (mock answer) []
    (Debater.generate_rebuttal sample_question JNull (sample_opening "B") self)
  = Returned self answer.
Proof.
  intros self answer. unfold result_of, sample_opening.
  rewrite (rebuttal_after_opening (mock answer) [] self sample_question JNull
             {[ "position" := JStr "A"; "argument" := JStr "Because." ]}
             {[ "position" := JStr "B"; "argument" := JStr "Because." ]});
    reflexivity.
Defined.

(** X5: on a Debater that stores an opening, [generate_rebuttal] with an
    opponent opening that is not a dict ([None], a string, a list, ...)
    raises [AttributeError] while building the prompt: the collaborator
    is not consulted and the Debater is unchanged. *)
Theorem rebuttal_needs_dict_opponent
    (self : Debater.t) (question prompt_context opponent : json)
    (mine : gmap string json) :
  Debater.opening_argument self = JDict mine ->
  mine !! "position" = Some (Debater.position self) ->
  (forall m, opponent <> JDict m) ->
  Debater.generate_rebuttal question prompt_context opponent self
  = Pure (Raised self AttributeError).
Proof.
  intros Hmine Hpos Hopp.
  assert (Htruthy : py_truthy (JDict mine) = true).
  { simpl. apply negb_true_iff, Nat.eqb_neq.
    intros Hsize. apply map_size_empty_iff in Hsize. subst mine.
    rewrite lookup_empty in Hpos. discriminate. }
  unfold Debater.generate_rebuttal. exec. rewrite Hmine, Htruthy. cbn.
  unfold prompts_experimental.get_debater_rebuttal_prompt.
  rewrite Hmine. cbn.
  destruct opponent; try reflexivity. now destruct (Hopp m).
Qed.

Lemma rebuttal_needs_dict_opponent_witness :
  let self :=
    Debater.mk (ClientHandle 0) "Debater" (JStr "A") (sample_opening "A") in
  Debater.generate_rebuttal sample_question JNull JNull self
  = Pure (Raised self AttributeError).
Proof.
  intros self.
  apply (rebuttal_needs_dict_opponent self sample_question JNull JNull
           {[ "position" := JStr "A"; "argument" := JStr "Because." ]});
    try reflexivity.
  intros m. discriminate.
Defined.

(** X6: with the modules of the repository, [generate_rebuttal_irac]
    never returns and never consults the collaborator: it raises the
    sequence [ValueError] when no opening is stored and otherwise
    [ImportError], since [src.agents.prompts] does not define
    [get_debater_rebuttal_prompt_irac] either. *)
Theorem generate_rebuttal_irac_never_returns
    (self : Debater.t) (question prompt_context opponent_opening : json) :
  Debater.generate_rebuttal_irac repo_modules question prompt_context
    opponent_opening self
  = Pure (Raised self
            (if py_truthy (Debater.opening_argument self)
             then ImportError "src.agents.prompts"
                    "get_debater_rebuttal_prompt_irac"
             else ValueError [Lit sequence_message])).
Proof.
  unfold Debater.generate_rebuttal_irac. exec.
  destruct (py_truthy (Debater.opening_argument self)); reflexivity.
Qed.

(** ** Requests to the collaborator *)

(** X7: a Debater operation makes at most one request to the
    collaborator; the request goes to the Debater's own client with the
    token limit of the operation (750, 900, 650 or 700). *)
Theorem debater_single_request
    (modules : sys_modules) (llm : collaborator) (log : list call)
    (self : Debater.t) (op : operation) :
  let log' := fst (run llm log (perform modules op self)) in
  log' = log \/
  exists prompt,
    log' = mkCall (Debater.client self) prompt (debater_max_tokens op) :: log.
Proof.
  intros log'. subst log'.
  destruct op; simpl;
    [unfold Debater.generate_opening
    |unfold Debater.generate_opening_irac
    |unfold Debater.generate_rebuttal
    |unfold Debater.generate_rebuttal_irac];
    exec_split; eauto.
Qed.

(** X8: a decision call makes at most one request to the collaborator;
    the request goes to the Judge's own client with the token limit of
    the variant (800 for vanilla, 1000 for IRAC and hybrid). *)
Theorem judge_single_request
    (modules : sys_modules) (llm : collaborator) (log : list call)
    (self : Judge.t) (v : variant)
    (question prompt_context : json) (choices : list json)
    (debate_history : json) :
  let log' :=
    fst (run llm log
           (decision_operation modules v question prompt_context choices
              debate_history self)) in
  log' = log \/
  exists prompt,
    log' = mkCall (Judge.client self) prompt (judge_max_tokens v) :: log.
Proof.
  intros log'. subst log'.
  destruct v; simpl;
    [unfold Judge.make_decision
    |unfold Judge.make_decision_irac
    |unfold Judge.make_decision_hybrid];
    exec_split; eauto.
Qed.

(** X9: when the collaborator fails on a Debater's request, the operation
    raises that failure unchanged (a GenerationError) and the Debater is
    as it was before the call. *)
Theorem debater_propagates_collaborator_failure
    (modules : sys_modules) (llm : collaborator) (log : list call)
    (self : Debater.t) (op : operation) (info : string) :
  answers llm log (perform modules op self) (Fails info) ->
  result_of llm log (perform modules op self)
  = Raised self (ClientError info) /\
  error_kind_of (ClientError info) = GenerationError.
Proof.
  intros Hans. split; [|reflexivity]. revert Hans. unfold result_of.
  destruct op; simpl;
    [unfold Debater.generate_opening
    |unfold Debater.generate_opening_irac
    |unfold Debater.generate_rebuttal
    |unfold Debater.generate_rebuttal_irac];
    exec_split; intros Hans;
    try contradiction; try discriminate;
    injection Hans as <-; reflexivity.
Qed.

Lemma debater_propagates_collaborator_failure_witness :
  let llm : collaborator := fun _ => Fails "rate limit" in
  let op := Opening sample_question JNull sample_choices (JStr "A") in
  result_of llm [] (perform repo_modules op sample_debater)
  = Raised sample_debater (ClientError "rate limit") /\
  error_kind_of (ClientError "rate limit") = GenerationError.
Proof.
  intros llm op.
  apply (debater_propagates_collaborator_failure repo_modules llm []
           sample_debater op "rate limit").
  reflexivity.
Defined.

(** X10: when the collaborator fails on a Judge's request, the decision
    call raises that failure unchanged (a GenerationError) and the Judge
    is as it was before the call. *)
Theorem judge_propagates_collaborator_failure
    (modules : sys_modules) (llm : collaborator) (log : list call)
    (self : Judge.t) (v : variant)
    (question prompt_context : json) (choices : list json)
    (debate_history : json) (info : string) :
  answers llm log
    (decision_operation modules v question prompt_context choices
       debate_history self)
    (Fails info) ->
  result_of llm log
    (decision_operation modules v question prompt_context choices
       debate_history self)
  = Raised self (ClientError info) /\
  error_kind_of (ClientError info) = GenerationError.
Proof.
  intros Hans. split; [|reflexivity]. revert Hans. unfold result_of.
  destruct v; simpl;
    [unfold Judge.make_decision
    |unfold Judge.make_decision_irac
    |unfold Judge.make_decision_hybrid];
    exec_split; intros Hans;
    try contradiction; try discriminate;
    injection Hans as <-; reflexivity.
Qed.

Lemma judge_propagates_collaborator_failure_witness :
  let llm : collaborator := fun _ => Fails "rate limit" in
  result_of llm []
    (decision_operation repo_modules Hybrid sample_question JNull
       sample_choices sample_history sample_judge)
  = Raised sample_judge (ClientError "rate limit") /\
  error_kind_of (ClientError "rate limit") = GenerationError.
Proof.
  intros llm.
  apply (judge_propagates_collaborator_failure repo_modules llm []
           sample_judge Hybrid sample_question JNull sample_choices
           sample_history "rate limit").
  reflexivity.
Defined.

(** ** What a decision call can return *)

Lemma synthesis_check_returned (keys : list string) (s response : json)
    (self self' : Judge.t) (r : json) :
  synthesis_check keys s response self = Returned self' r ->
  forall key, In key keys -> py_contains key s = Ok true.
Proof.
  induction keys as [|key rest IH]; [intros _ key []|].
  rewrite synthesis_check_cons. unfold py_not_in.
  destruct (py_contains key s) as [[]|e] eqn:Hkey; cbn;
    try discriminate.
  intros Hret key' [<-|Hin]; [assumption|now apply IH].
Qed.

(** Inversion of a returning decision call. *)
Lemma decision_returned_inv
    (modules : sys_modules) (llm : collaborator) (log : list call)
    (self self' : Judge.t) (v : variant)
    (question prompt_context : json) (choices : list json)
    (debate_history : json) (response : json) :
  result_of llm log
    (decision_operation modules v question prompt_context choices
       debate_history self)
  = Returned self' response ->
  self' = self /\
  answers llm log
    (decision_operation modules v question prompt_context choices
       debate_history self)
    (Returns response) /\
  exists m, response = JDict m /\ decision_ok m.
Proof.
  unfold result_of.
  destruct v; simpl;
    [unfold Judge.make_decision
    |unfold Judge.make_decision_irac
    |unfold Judge.make_decision_hybrid];
    exec_split; intros Hres; try discriminate;
    injection Hres as <- <-;
    (split; [reflexivity|]); (split; [reflexivity|]);
    match goal with
    | H : py_getitem ?r "decision" = Ok ?d,
      Hl : py_not_in_list ?d Judge.labels = false |- _ =>
        destruct (py_getitem_ok _ _ _ H) as (m & Hm & Hd);
        exists m; split; [exact Hm|];
        apply decision_ok_iff; exists d; split; assumption
    end.
Qed.

(** X11: whatever the variant, a decision call that returns has consulted
    the collaborator and returns its response unchanged; that response is
    a JSON object whose [decision] is one of the strings "A", "B", "C",
    "D"; and the Judge is as it was before the call. *)
Theorem decision_returns_valid_label
    (modules : sys_modules) (llm : collaborator) (log : list call)
    (self self' : Judge.t) (v : variant)
    (question prompt_context : json) (choices : list json)
    (debate_history : json) (response : json) :
  result_of llm log
    (decision_operation modules v question prompt_context choices
       debate_history self)
  = Returned self' response ->
  self' = self /\
  answers llm log
    (decision_operation modules v question prompt_context choices
       debate_history self)
    (Returns response) /\
  exists m, response = JDict m /\ decision_ok m.
Proof. apply decision_returned_inv. Qed.

Lemma decision_returns_valid_label_witness :
  let payload := JDict (sample_decision "tie" "C") in
  sample_judge = sample_judge /\
  answers (mock payload) []
    (decision_operation repo_modules Hybrid sample_question JNull
       sample_choices sample_history sample_judge)
    (Returns payload) /\
  exists m, payload = JDict m /\ decision_ok m.
Proof.
  intros payload.
  apply (decision_returns_valid_label repo_modules (mock payload) []
           sample_judge sample_judge Hybrid sample_question JNull
           sample_choices sample_history payload).
  reflexivity.
Defined.

(** X12: a payload returned by the hybrid decision is consistent with the
    transcript: if its winner is "debater_x" (respectively "debater_y"),
    its decision is the position stored in that debater's opening. *)
Theorem hybrid_returns_consistent_payload
    (llm : collaborator) (log : list call) (self self' : Judge.t)
    (question prompt_context : json) (choices : list json)
    (debate_history : json) (m : gmap string json) (l side : string) :
  result_of llm log
    (Judge.make_decision_hybrid repo_modules question prompt_context choices
       debate_history self)
  = Returned self' (JDict m) ->
  m !! "decision" = Some (JStr l) ->
  side = "debater_x" \/ side = "debater_y" ->
  winner_of m = JStr side ->
  opening_position debate_history side = Ok (JStr l).
Proof.
  intros Hres Hdec Hside Hwin.
  destruct (decision_returned_inv repo_modules llm log self self' Hybrid
              _ _ _ _ _ Hres) as (_ & Hans & m' & [= <-] & Hok).
  simpl in Hans.
  assert (Hl : In l Judge.labels).
  { destruct Hok as (l' & Hd' & Hin). rewrite Hdec in Hd'.
    now injection Hd' as <-. }
  destruct (hybrid_positions_available _ _ _ _ _ _ _ _ Hans)
    as (x_pos & y_pos & Hx & Hy).
  rewrite (hybrid_verdict _ _ _ _ _ _ _ _ _ _ _ Hans Hdec Hl Hx Hy) in Hres.
  rewrite Hwin in Hres.
  destruct Hside as [-> | ->]; simpl in Hres.
  - destruct (py_ne (JStr l) x_pos) eqn:Hne; [discriminate|].
    unfold py_ne in Hne. apply negb_false_iff, py_eq_str_l in Hne.
    now rewrite Hx, Hne.
  - destruct (py_ne (JStr l) y_pos) eqn:Hne; [discriminate|].
    unfold py_ne in Hne. apply negb_false_iff, py_eq_str_l in Hne.
    now rewrite Hy, Hne.
Qed.

Lemma hybrid_returns_consistent_payload_witness :
  opening_position sample_history "debater_y" = Ok (JStr "B").
Proof.
  apply (hybrid_returns_consistent_payload
           (mock (JDict (sample_decision "debater_y" "B"))) []
           sample_judge sample_judge sample_question JNull sample_choices
           sample_history (sample_decision "debater_y" "B") "B" "debater_y");
    try reflexivity.
  right. reflexivity.
Defined.

(** X13: the IRAC decision returns only payloads whose [synthesis] is
    present and passes the four [key in synthesis] tests. *)
Theorem irac_returns_complete_synthesis
    (llm : collaborator) (log : list call) (self self' : Judge.t)
    (question prompt_context : json) (choices : list json)
    (debate_history : json) (m : gmap string json) :
  result_of llm log
    (Judge.make_decision_irac repo_modules question prompt_context choices
       debate_history self)
  = Returned self' (JDict m) ->
  synthesis_complete m.
Proof.
  intros Hres.
  destruct (decision_returned_inv repo_modules llm log self self' IRAC
              _ _ _ _ _ Hres) as (_ & Hans & _).
  simpl in Hans. rewrite (irac_verdict _ _ _ _ _ _ _ _ Hans) in Hres.
  destruct (m !! "decision") as [d|]; [|discriminate].
  destruct (py_not_in_list d Judge.labels); [discriminate|].
  unfold synthesis_complete.
  destruct (m !! "synthesis") as [s|]; [|discriminate].
  exists s. split; [reflexivity|].
  eapply synthesis_check_returned. exact Hres.
Qed.

Lemma irac_returns_complete_synthesis_witness :
  synthesis_complete
    {[ "decision" := JStr "A";
       "synthesis" := JStr "issue, rule, application, conclusion" ]}.
Proof.
  apply (irac_returns_complete_synthesis
           (mock (JDict {[ "decision" := JStr "A";
                           "synthesis" :=
                             JStr "issue, rule, application, conclusion" ]}))
           [] sample_judge sample_judge sample_question JNull sample_choices
           sample_history).
  reflexivity.
Defined.

(** X14: in the IRAC decision, a payload with a valid decision whose
    [synthesis] is [None], a boolean or an integer is not rejected by the
    schema check: the first [key in synthesis] test raises [TypeError],
    which is what the call raises. *)
Theorem irac_synthesis_not_iterable
    (llm : collaborator) (log : list call) (self : Judge.t)
    (question prompt_context : json) (choices : list json)
    (debate_history : json) (m : gmap string json) (s : json) :
  answers llm log
    (Judge.make_decision_irac repo_modules question prompt_context choices
       debate_history self)
    (Returns (JDict m)) ->
  decision_ok m ->
  m !! "synthesis" = Some s ->
  s = JNull \/ (exists b, s = JBool b) \/ (exists n, s = JInt n) ->
  result_of llm log
    (Judge.make_decision_irac repo_modules question prompt_context choices
       debate_history self)
  = Raised self TypeError /\
  error_kind_of TypeError = UnclassifiedError.
Proof.
  intros Hans Hok Hs Hshape. split; [|reflexivity].
  rewrite (irac_verdict _ _ _ _ _ _ _ _ Hans).
  apply decision_ok_iff in Hok. destruct Hok as (d & -> & ->).
  rewrite Hs.
  destruct Hshape as [->|[(b & ->)|(n & ->)]]; reflexivity.
Qed.

Lemma irac_synthesis_not_iterable_witness :
  let m : gmap string json :=
    {[ "decision" := JStr "B"; "synthesis" := JNull ]} in
  result_of (mock (JDict m)) []
    (Judge.make_decision_irac repo_modules sample_question JNull
       sample_choices sample_history sample_judge)
  = Raised sample_judge TypeError /\
  error_kind_of TypeError = UnclassifiedError.
Proof.
  intros m.
  apply (irac_synthesis_not_iterable (mock (JDict m)) [] sample_judge
           sample_question JNull sample_choices sample_history m JNull).
  - reflexivity.
  - exists "B"%string. split; [reflexivity|simpl; auto].
  - reflexivity.
  - left. reflexivity.
Defined.

(** X15: in the hybrid decision the label check comes first: a payload
    whose decision is absent or is not one of the four labels is rejected
    with a SchemaError, whatever its winner and whatever the transcript's
    positions. *)
Theorem hybrid_rejects_invalid_decision
    (llm : collaborator) (log : list call) (self : Judge.t)
    (question prompt_context : json) (choices : list json)
    (debate_history : json) (m : gmap string json) :
  answers llm log
    (Judge.make_decision_hybrid repo_modules question prompt_context choices
       debate_history self)
    (Returns (JDict m)) ->
  ~ decision_ok m ->
  result_of llm log
    (Judge.make_decision_hybrid repo_modules question prompt_context choices
       debate_history self)
  = Raised self
      (match m !! "decision" with
       | None =>
           ValueError [Lit "Invalid judge hybrid response: "; Fmt (JDict m)]
       | Some d => ValueError [Lit "Invalid decision choice: "; Fmt d]
       end) /\
  fails_with SchemaError
    (result_of llm log
       (Judge.make_decision_hybrid repo_modules question prompt_context
          choices debate_history self)).
Proof.
  intros Hans Hbad.
  assert (Hres :
    result_of llm log
      (Judge.make_decision_hybrid repo_modules question prompt_context
         choices debate_history self)
    = Raised self
        (match m !! "decision" with
         | None =>
             ValueError [Lit "Invalid judge hybrid response: "; Fmt (JDict m)]
         | Some d => ValueError [Lit "Invalid decision choice: "; Fmt d]
         end)).
  { unfold result_of, Judge.make_decision_hybrid in *.
    rewrite import_judge_hybrid in *. exec_in Hans. exec.
    destruct (prompts_experimental.get_judge_decision_prompt_hybrid
                question prompt_context choices debate_history);
      cbn in Hans; [|contradiction].
    cbn. rewrite Hans. cbn.
    destruct (m !! "decision") as [d|] eqn:Hd; cbn; [|reflexivity].
    destruct (py_not_in_list d Judge.labels) eqn:Hl; cbn.
    - reflexivity.
    - exfalso. apply Hbad. apply decision_ok_iff. eauto. }
  split; [exact Hres|]. rewrite Hres.
  destruct (m !! "decision"); reflexivity.
Qed.

Lemma hybrid_rejects_invalid_decision_witness :
  let m := sample_decision "debater_x" "E" in
  fails_with SchemaError
    (result_of (mock (JDict m)) []
       (Judge.make_decision_hybrid repo_modules sample_question JNull
          sample_choices sample_history sample_judge)).
Proof.
  intros m.
  apply (hybrid_rejects_invalid_decision (mock (JDict m)) [] sample_judge
           sample_question JNull sample_choices sample_history m).
  - reflexivity.
  - intros (l & Hd & Hl). injection Hd as <-.
    simpl in Hl. intuition discriminate.
Defined.

(** X16: in the hybrid decision, when the transcript has no entry for the
    side the payload names as winner, the position read for that side is
    the empty string, so every payload with a valid decision naming that
    side is rejected with a ConsistencyError. *)
Theorem hybrid_absent_winner_side_rejected
    (llm : collaborator) (log : list call) (self : Judge.t)
    (question prompt_context : json) (choices : list json)
    (history m : gmap string json) (l side : string) :
  answers llm log
    (Judge.make_decision_hybrid repo_modules question prompt_context choices
       (JDict history) self)
    (Returns (JDict m)) ->
  m !! "decision" = Some (JStr l) ->
  In l Judge.labels ->
  side = "debater_x" \/ side = "debater_y" ->
  winner_of m = JStr side ->
  history !! side = None ->
  fails_with ConsistencyError
    (result_of llm log
       (Judge.make_decision_hybrid repo_modules question prompt_context
          choices (JDict history) self)).
Proof.
  intros Hans Hdec Hl Hside Hwin Habsent.
  destruct (hybrid_positions_available _ _ _ _ _ _ _ _ Hans)
    as (x_pos & y_pos & Hx & Hy).
  rewrite (hybrid_verdict _ _ _ _ _ _ _ _ _ _ _ Hans Hdec Hl Hx Hy).
  rewrite Hwin.
  assert (Hne : forall pos, pos = empty_str -> py_ne (JStr l) pos = true).
  { intros pos ->. unfold py_ne, empty_str. simpl.
    simpl in Hl. intuition (subst; reflexivity). }
  destruct Hside as [-> | ->]; simpl.
  - unfold opening_position in Hx. simpl in Hx. rewrite Habsent in Hx.
    simpl in Hx. injection Hx as <-. rewrite Hne by reflexivity.
    reflexivity.
  - unfold opening_position in Hy. simpl in Hy. rewrite Habsent in Hy.
    simpl in Hy. injection Hy as <-. rewrite Hne by reflexivity.
    reflexivity.
Qed.

Lemma hybrid_absent_winner_side_rejected_witness :
  let history : gmap string json :=
    {[ "debater_x" := JDict {[ "opening" := sample_opening "A" ]} ]} in
  let m := sample_decision "debater_y" "B" in
  fails_with ConsistencyError
    (result_of (mock (JDict m)) []
       (Judge.make_decision_hybrid repo_modules sample_question JNull
          sample_choices (JDict history) sample_judge)).
Proof.
  intros history m.
  apply (hybrid_absent_winner_side_rejected (mock (JDict m)) [] sample_judge
           sample_question JNull sample_choices history m "B" "debater_y");
    try reflexivity.
  - simpl. auto.
  - right. reflexivity.
Defined.

(** ** Persistence of the opening *)

(** X17: once a Debater stores an opening, no operation clears it: after
    any further operation, however it ends, the Debater still stores an
    opening whose [position] is the stored position (a later successful
    opening replaces both together). *)
Theorem opening_is_never_lost
    (modules : sys_modules) (llm : collaborator) (log : list call)
    (self : Debater.t) (op : operation) :
  opened self ->
  opened (final_state (result_of llm log (perform modules op self))).
Proof.
  intros Hopened.
  destruct (is_opening op) eqn:Hop.
  - destruct (opening_outcome modules llm log self op Hop)
      as [(_ & ->)|(m & pos & -> & Hm)]; [assumption|].
    exists m. simpl. auto.
  - destruct op; try discriminate; simpl.
    + now rewrite generate_rebuttal_frame.
    + now rewrite generate_rebuttal_irac_frame.
Qed.

Lemma opening_is_never_lost_witness :
  let self :=
    Debater.mk (ClientHandle 0) "Debater" (JStr "A") (sample_opening "A") in
  let op := Opening sample_question JNull sample_choices (JStr "C") in
  opened
    (final_state
       (result_of (mock (sample_opening "C")) []
          (perform repo_modules op self))).
Proof.
  intros self op.
  apply (opening_is_never_lost repo_modules (mock (sample_opening "C")) []
           self op).
  exists {[ "position" := JStr "A"; "argument" := JStr "Because." ]}.
  split; reflexivity.
Defined.

(** ** Transcripts the Judge can read *)

Lemma readable_side_get2 (history : gmap string json)
    (side phase key : string) (default : json) :
  readable_side history side ->
  phase = "opening"%string \/ phase = "rebuttal"%string ->
  exists v,
    py_get2 (get_or history side empty_dict) phase key default = Ok v.
Proof.
  unfold readable_side, get_or, py_get2.
  destruct (history !! side) as [[| | | | |d]|]; simpl; try contradiction.
  - intros (Ho & Hr) [-> | ->].
    + destruct (d !! "opening") as [[| | | | |o]|]; simpl in *;
        try contradiction; eauto.
    + destruct (d !! "rebuttal") as [[| | | | |o]|]; simpl in *;
        try contradiction; eauto.
  - intros _ _. rewrite lookup_empty. simpl. eauto.
Qed.

(** X18: the vanilla judge prompt is built from incomplete transcripts:
    for a dict transcript in which each of [debater_x] and [debater_y] is
    absent or a dict whose [opening] and [rebuttal] are absent or dicts,
    and at most 1114047 choices, the builder succeeds (missing content is
    read as empty), so [make_decision] goes on to consult the
    collaborator. *)
Theorem judge_prompt_tolerates_missing_phases
    (question prompt_context : json) (choices : list json)
    (history : gmap string json) (self : Judge.t) :
  Z.of_nat (List.length choices) <= max_choices ->
  readable_side history "debater_x" ->
  readable_side history "debater_y" ->
  exists prompt k,
    prompts_experimental.get_judge_decision_prompt question prompt_context
      choices (JDict history) = Ok prompt /\
    Judge.make_decision question prompt_context choices (JDict history) self
    = GenerateJson (mkCall (Judge.client self) prompt 800) k.
Proof.
  intros Hlen Hx Hy.
  destruct (choice_lines_succeeds choices 0) as (lines & Hlines); [lia|lia|].
  unfold Judge.make_decision,
    prompts_experimental.get_judge_decision_prompt, choices_text.
  rewrite Hlines. cbn. fold (get_or history "debater_x" empty_dict).
  fold (get_or history "debater_y" empty_dict).
  destruct (readable_side_get2 history "debater_x" "opening" "position"
              empty_str Hx) as (v1 & ->); [auto|].
  destruct (readable_side_get2 history "debater_x" "opening" "argument"
              empty_str Hx) as (v2 & ->); [auto|].
  destruct (readable_side_get2 history "debater_x" "rebuttal" "rebuttal"
              empty_str Hx) as (v3 & ->); [auto|].
  destruct (readable_side_get2 history "debater_y" "opening" "position"
              empty_str Hy) as (v4 & ->); [auto|].
  destruct (readable_side_get2 history "debater_y" "opening" "argument"
              empty_str Hy) as (v5 & ->); [auto|].
  destruct (readable_side_get2 history "debater_y" "rebuttal" "rebuttal"
              empty_str Hy) as (v6 & ->); [auto|].
  exec. eexists _, _. split; reflexivity.
Qed.

Lemma judge_prompt_tolerates_missing_phases_witness :
  exists prompt k,
    prompts_experimental.get_judge_decision_prompt sample_question JNull
      sample_choices (JDict ∅) = Ok prompt /\
    Judge.make_decision sample_question JNull sample_choices (JDict ∅)
      sample_judge
    = GenerateJson (mkCall (Judge.client sample_judge) prompt 800) k.
Proof.
  apply (judge_prompt_tolerates_missing_phases sample_question JNull
           sample_choices ∅ sample_judge).
  - unfold max_choices. simpl. lia.
  - exact I.
  - exact I.
Defined.

(** X19: the two positions the hybrid prompt tells the collaborator to
    choose between are the very values the consistency check compares the
    decision with: whenever the hybrid prompt is built, the positions
    read from the transcript for [debater_x] and [debater_y] are among
    the values interpolated into it. *)
Theorem hybrid_prompt_states_checked_positions
    (question prompt_context : json) (choices : list json)
    (debate_history : json) (prompt : Prompt) :
  prompts_experimental.get_judge_decision_prompt_hybrid question
    prompt_context choices debate_history = Ok prompt ->
  exists x_pos y_pos,
    opening_position debate_history "debater_x" = Ok x_pos /\
    opening_position debate_history "debater_y" = Ok y_pos /\
    prompt_template prompt = JudgeDecisionHybrid /\
    In [Fmt x_pos] (prompt_holes prompt) /\
    In [Fmt y_pos] (prompt_holes prompt).
Proof.
  unfold prompts_experimental.get_judge_decision_prompt_hybrid,
    opening_position.
  destruct (choices_text choices) as [ct|]; cbn; [|discriminate].
  destruct (py_get debate_history "debater_x" empty_dict) as [dx|]; cbn;
    [|discriminate].
  destruct (py_get debate_history "debater_y" empty_dict) as [dy|]; cbn;
    [|discriminate].
  destruct (py_get2 dx "opening" "position" empty_str) as [xp|]; cbn;
    [|discriminate].
  destruct (py_get2 dy "opening" "position" empty_str) as [yp|]; cbn;
    [|discriminate].
  destruct (py_get2 dx "opening" "irac" empty_dict) as [xi|]; cbn;
    [|discriminate].
  destruct (py_get2 dy "opening" "irac" empty_dict) as [yi|]; cbn;
    [|discriminate].
  destruct (py_get2 dx "rebuttal" "rebuttal" empty_str) as [xr|]; cbn;
    [|discriminate].
  destruct (py_get2 dy "rebuttal" "rebuttal" empty_str) as [yr|]; cbn;
    [|discriminate].
  destruct (prompts_experimental.irac_fields xi) as [xf|]; cbn;
    [|discriminate].
  destruct (prompts_experimental.irac_fields yi) as [yf|]; cbn;
    [|discriminate].
  intros [= <-]. exists xp, yp. cbn. repeat split.
  - right. right. left. reflexivity.
  - right. right. right. apply in_or_app. right. left. reflexivity.
Qed.

Lemma hybrid_prompt_states_checked_positions_witness :
  exists prompt x_pos y_pos,
    prompts_experimental.get_judge_decision_prompt_hybrid sample_question
      JNull sample_choices sample_history = Ok prompt /\
    opening_position sample_history "debater_x" = Ok x_pos /\
    opening_position sample_history "debater_y" = Ok y_pos /\
    prompt_template prompt = JudgeDecisionHybrid /\
    In [Fmt x_pos] (prompt_holes prompt) /\
    In [Fmt y_pos] (prompt_holes prompt).
Proof.
  eexists.
  assert (H : prompts_experimental.get_judge_decision_prompt_hybrid
                sample_question JNull sample_choices sample_history
              = Ok _) by reflexivity.
  destruct (hybrid_prompt_states_checked_positions _ _ _ _ _ H)
    as (x_pos & y_pos & Hrest).
  exists x_pos, y_pos. split; [exact H|exact Hrest].
Defined.
